(** * ably-js: BaseClient, Channels and PushChannelSubscription

    A shallow embedding of
      - [src/common/lib/client/baseclient.ts]  (classes [BaseClient], [Channels])
      - [common/lib/types/pushchannelsubscription.ts]
    together with the properties the specification states about them.

    Conventions of the embedding:
      - JavaScript values are a closed inductive type [JS.value]; numbers are
        the integers (the only numbers the modelled code computes with are
        millisecond timestamps and error codes), strings are sequences of
        one-byte code units;
      - objects that are compared by identity (clients, channels) live in a
        store indexed by references, and a method takes the reference of
        [this];
      - a call that can throw returns a [JS.completion];
      - what a method hands to a collaborator that is not part of these two
        files (the HTTP layer, [PaginatedResource]) is recorded as an event in
        the trace of the call. *)

From Stdlib Require Import ZArith Ascii String List Lia Bool.
From stdpp Require Import base option list strings gmap pretty.

Local Open Scope string_scope.
Set Warnings "-register-all".

(** ** Part I: definitions *)

(** *** JavaScript values *)

Module JS.

(** Error objects: [new Error(msg)], the library's
    [new ErrorInfo(msg, code, statusCode)], the engine's [TypeError] and
    [SyntaxError], and the [ErrnoException] a transport reports. *)
Inductive error : Type :=
| Error (msg : string)
| ErrorInfo (msg : string) (code statusCode : Z)
| TypeError (msg : string)
| SyntaxError (msg : string)
| ErrnoException (code : string).

(** Function values: a function of the caller, the [noop] of baseclient.ts,
    and the node-style callback with which [Utils.promisify] settles the
    promise [p] it creates. *)
Inductive fun_id : Type :=
| FUser (n : nat)
| FNoop
| FSettle (p : nat).

Inductive value : Type :=
| VUndefined
| VNull
| VBool (b : bool)
| VNum (n : Z)
| VStr (s : string)
| VFun (f : fun_id)
| VArr (elems : list value)
| VObj (props : list (string * value))
| VError (e : error)
| VPromise (p : nat).

(** A call returns or throws. *)
Inductive completion (A : Type) : Type :=
| Return (a : A)
| Throw (e : error).
Arguments Return {A} a.
Arguments Throw {A} e.

Definition bind {A B} (m : completion A) (k : A -> completion B) : completion B :=
  match m with
  | Return a => k a
  | Throw e => Throw e
  end.

(** [typeof v] *)
Definition typeof (v : value) : string :=
  match v with
  | VUndefined => "undefined"
  | VNull => "object"
  | VBool _ => "boolean"
  | VNum _ => "number"
  | VStr _ => "string"
  | VFun _ => "function"
  | VArr _ | VObj _ | VError _ | VPromise _ => "object"
  end.

(** ToBoolean: what [if (v)], [!v] and [v || w] test. *)
Definition truthy (v : value) : bool :=
  match v with
  | VUndefined | VNull => false
  | VBool b => b
  | VNum n => negb (n =? 0)%Z
  | VStr s => negb (s =? "")
  | VFun _ | VArr _ | VObj _ | VError _ | VPromise _ => true
  end.

(** [a || b] *)
Definition or_else (a b : value) : value := if truthy a then a else b.

(** [v === undefined] *)
Definition is_undefined (v : value) : bool :=
  match v with VUndefined => true | _ => false end.

(** Property maps keep insertion order, as JavaScript objects do. *)
Abbreviation props := (list (string * value)).

Fixpoint get_prop (o : props) (k : string) : value :=
  match o with
  | [] => VUndefined
  | (k', v) :: rest => if (k' =? k) then v else get_prop rest k
  end.

(** [k in o] for an object without inherited properties of that name. *)
Fixpoint has_prop (o : props) (k : string) : bool :=
  match o with
  | [] => false
  | (k', _) :: rest => (k' =? k) || has_prop rest k
  end.

Fixpoint set_prop (o : props) (k : string) (v : value) : props :=
  match o with
  | [] => [(k, v)]
  | (k', v') :: rest =>
      if (k' =? k) then (k', v) :: rest else (k', v') :: set_prop rest k v
  end.

(** [Object.assign(target, source)] for a source that is an object and a
    target without setters of its own: every key of the source becomes an
    own property of the target.  A key [__proto__] is the exception in
    JavaScript (it goes through the prototype's setter and is not copied);
    statements about arbitrary sources exclude it. *)
Definition Object_assign (target source : props) : props :=
  fold_left (fun t kv => set_prop t (fst kv) (snd kv)) source target.

(** [v[0]]: reading an index of [null] or [undefined] throws; an array
    gives its element, a string its first character, an object its
    property ["0"]; anything else has no such property. *)
Definition get_index0 (v : value) : completion value :=
  match v with
  | VUndefined => Throw (TypeError "Cannot read properties of undefined (reading '0')")
  | VNull => Throw (TypeError "Cannot read properties of null (reading '0')")
  | VArr elems => Return (default VUndefined (elems !! 0%nat))
  | VStr (String c _) => Return (VStr (String c EmptyString))
  | VObj ps => Return (get_prop ps "0")
  | _ => Return VUndefined
  end.

(** [f(args)]: calling a function is recorded by the caller; calling
    anything else throws. *)
Definition callable (f : value) : completion fun_id :=
  match f with
  | VFun g => Return g
  | _ => Throw (TypeError "callback is not a function")
  end.

(** Primitive values and their [String(v)] coercion. *)
Inductive primitive : Type :=
| PUndefined
| PNull
| PBool (b : bool)
| PNum (n : Z)
| PStr (s : string).

Definition String_ (v : primitive) : string :=
  match v with
  | PUndefined => "undefined"
  | PNull => "null"
  | PBool true => "true"
  | PBool false => "false"
  | PNum n => pretty n
  | PStr s => s
  end.

(** One code unit of [String.prototype.toLowerCase]: [A-Z] and the
    Latin-1 capitals (U+00C0 to U+00DE without the multiplication sign). *)
Definition lower_ascii (c : ascii) : ascii :=
  let n := nat_of_ascii c in
  if ((65 <=? n) && (n <=? 90) || (192 <=? n) && (n <=? 222) && negb (n =? 215))%nat
  then ascii_of_nat (n + 32) else c.

Fixpoint toLowerCase (s : string) : string :=
  match s with
  | EmptyString => EmptyString
  | String c rest => String (lower_ascii c) (toLowerCase rest)
  end.

(** The class [\s] of a regular expression, on one-byte code units. *)
Definition is_space (c : ascii) : bool :=
  let n := nat_of_ascii c in
  ((9 <=? n) && (n <=? 13) || (n =? 32) || (n =? 160))%nat.

(** [for (let i = start; i < count; i++) body(i)] over a state [S]. *)
Fixpoint for_upto {S} (fuel : nat) (i count : nat) (body : nat -> S -> S) (s : S) : S :=
  match fuel with
  | O => s
  | Datatypes.S fuel' =>
      if (i <? count)%nat then for_upto fuel' (Datatypes.S i) count body (body i s) else s
  end.

(** [s + v] for a string [s] converts [v] to a string: a primitive as
    [String(v)] does, an object through its own [toString], which is the
    parameter [ToString]. *)
Definition concat_operand (ToString : value -> string) (v : value) : string :=
  match v with
  | VUndefined => "undefined"
  | VNull => "null"
  | VBool true => "true"
  | VBool false => "false"
  | VNum n => pretty n
  | VStr s => s
  | _ => ToString v
  end.


End JS.

(** *** common/lib/types/pushchannelsubscription.ts *)

Module PushChannelSubscription.
Import JS.

(** An instance is an object of class [PushChannelSubscription]; the class
    declares [channel?], [deviceId?] and [clientId?] without initialisers, so
    a fresh instance has no own property. *)
Record t : Type := Build { own : props }.

Definition new : t := Build [].

Definition channel (s : t) : value := get_prop (own s) "channel".
Definition deviceId (s : t) : value := get_prop (own s) "deviceId".
Definition clientId (s : t) : value := get_prop (own s) "clientId".

Definition toJSON (s : t) : props :=
  [("channel", channel s); ("deviceId", deviceId s); ("clientId", clientId s)].

Definition fromValues (values : props) : t :=
  Build (Object_assign (own new) values).

(** [new Array(count)] is [count] empty slots; a slot is [None] until it is
    assigned.  [values[i]] is read inside the bounds of [values]. *)
Definition fromValuesArray (values : list props) : list (option t) :=
  let count := length values in
  let result := replicate count None in
  for_upto count 0 count
    (fun i result => <[i := Some (fromValues (default [] (values !! i)))]> result)
    result.

(** [toString()], lines 20 to 30 *)
Definition toString (ToString : value -> string) (s : t) : string :=
  let result := "[PushChannelSubscription" in
  let result :=
    if truthy (channel s)
    then result ++ ("; channel=" ++ concat_operand ToString (channel s)) else result in
  let result :=
    if truthy (deviceId s)
    then result ++ ("; deviceId=" ++ concat_operand ToString (deviceId s)) else result in
  let result :=
    if truthy (clientId s)
    then result ++ ("; clientId=" ++ concat_operand ToString (clientId s)) else result in
  result ++ "]".

(** The body [fromResponseBody] takes, by its declared type
    [Array<Record<string, unknown>> | Record<string, unknown>];
    [Utils.isArray] tells the two apart. *)
Inductive body : Type :=
| BArray (values : list props)
| BRecord (values : props).

(** What [fromResponseBody] returns: an array of subscriptions or one
    subscription. *)
Inductive parsed : Type :=
| PArray (subscriptions : list (option t))
| POne (subscription : t).

(** [fromResponseBody(body, format)], lines 34 to 44; [Utils.decodeBody] of
    ../util/utils is a parameter. *)
Definition fromResponseBody (decodeBody : body -> value -> body)
    (b : body) (format : value) : parsed :=
  let b := if truthy format then decodeBody b format else b in
  match b with
  | BArray values => PArray (fromValuesArray values)
  | BRecord values => POne (fromValues values)
  end.


End PushChannelSubscription.

(** *** src/common/lib/client/baseclient.ts: class Channels *)

Module Channels.
Import JS.

(** References to objects that are compared by identity. *)
Abbreviation ref := nat.

(** The class [Channel] (./channel) is imported by baseclient.ts; [Channels]
    only constructs channels and calls [setOptions] on them. *)
Class ChannelClass : Type := {
  Channel : Type;
  ChannelOptions : Type;
  Channel_new : ref -> string -> option ChannelOptions -> Channel;
  Channel_setOptions : Channel -> ChannelOptions -> Channel;
}.

(** A [Channels] object: [all] is created by [Object.create(null)], so it has
    exactly the properties the class stores in it; its values are references
    to [Channel] objects. *)
Record t : Type := Build { client : ref; all : gmap string ref }.

(** [constructor(client)] *)
Definition new (client : ref) : t := Build client ∅.

(** [get(name, channelOptions?)]: returns the channel, the [Channels] object
    and the store of [Channel] objects after the call.  An absent
    [channelOptions] is [None]; a present one is an object, hence truthy, and
    so is every channel stored in [all]. *)
Definition get {C : ChannelClass} (this : t) (σ : gmap ref Channel)
    (name : primitive) (channelOptions : option ChannelOptions)
  : ref * t * gmap ref Channel :=
  let name := String_ name in
  match all this !! name with
  | None =>
      let channel := fresh (dom σ) in
      (channel,
       Build (client this) (<[name := channel]> (all this)),
       <[channel := Channel_new (client this) name channelOptions]> σ)
  | Some channel =>
      match channelOptions with
      | Some o => (channel, this, alter (fun c => Channel_setOptions c o) channel σ)
      | None => (channel, this, σ)
      end
  end.

(** [release(name)] *)
Definition release (this : t) (name : primitive) : t :=
  Build (client this) (delete (String_ name) (all this)).

(** A channel class for examples: a channel is its name and its options. *)
Definition example_class : ChannelClass :=
  {| Channel := string * option nat;
     ChannelOptions := nat;
     Channel_new := fun _ name o => (name, o);
     Channel_setOptions := fun c o => (fst c, Some o) |}.

(** A [Channels] object is consistent with a store of channels when every
    name leads to a channel of the store and no channel is stored under two
    names. *)
Definition consistent {C : ChannelClass} (this : t) (σ : gmap ref Channel) : Prop :=
  (forall name c, all this !! name = Some c -> c ∈ dom σ) /\
  (forall name name' c,
     all this !! name = Some c -> all this !! name' = Some c -> name = name').


End Channels.

(** *** src/common/lib/client/baseclient.ts: class BaseClient *)

Module BaseClient.
Import JS.

Abbreviation ref := nat.

(** A JavaScript number that results from arithmetic: an integer or [NaN]. *)
Inductive number : Type :=
| Finite (z : Z)
| NaN.

(** What baseclient.ts imports from modules that are not part of it: the
    defaults, the utilities, the platform (HTTP implementation, msgpack), the
    classes [Auth] and [Push], and the built-in functions whose result
    depends on text the model does not interpret. *)
Class Environment : Type := {
  Defaults_objectifyOptions : value -> value;
  Defaults_normaliseOptions : value -> completion props;
  Defaults_getHttpScheme : props -> string;
  Defaults_getPort : props -> bool -> Z;
  Utils_defaultGetHeaders : props -> option (string * Z) -> props;
  Utils_defaultPostHeaders : props -> option (string * Z) -> props;
  Utils_mixin : props -> value -> props;
  Http : Type;
  Http_new : props -> completion Http;
  Http_supportsLinkHeaders : Http -> bool;
  Http_methods : list string;
  Http_methodsWithBody : list string;
  msgpack_encode : value -> value;
  Auth : Type;
  Auth_new : ref -> props -> completion Auth;
  Push : Type;
  Push_new : ref -> completion Push;
  JSON_parse : value -> completion value;
  JSON_stringify : value -> value;
  ToNumber : value -> number;
}.

(** [_currentFallback: null | { host: string; validUntil: number }] *)
Record fallback : Type := { host : string; validUntil : Z }.

(** The instance fields of a client. *)
Record t {E : Environment} : Type := Build {
  options : props;
  _currentFallback : option fallback;
  serverTimeOffset : option number;
  http : Http;
  auth : Auth;
  channels : Channels.t;
  push : Push;
}.

(** The body handlers passed to [PaginatedResource] are closed functions of
    the response; they are named, not unfolded. *)
Inductive body_handler : Type :=
| StatsBody
| RequestBody (useBinary : bool).

(** [new PaginatedResource(client, path, headers, envelope, bodyHandler,
    useHttpPaginatedResponse)] *)
Record resource : Type := {
  res_client : ref;
  res_path : string;
  res_headers : props;
  res_envelope : value;
  res_bodyHandler : body_handler;
  res_useHttpPaginatedResponse : bool;
}.

(** The callback [time] passes to [http.do] closes over [this] and
    [_callback]. *)
Inductive continuation : Type :=
| TimeResponse (this : ref) (_callback : value).

(** What a call does to the outside, in order. *)
Inductive event : Type :=
| ENew (class : string)
| EPaginated (r : resource) (method : string) (params : value)
    (body : option value) (callback : value)
| EHttpDo (method : string) (client : ref) (uri : string -> string)
    (headers : props) (body : value) (params : value) (k : continuation)
| ECall (f : fun_id) (args : list value)
| EReject (p : nat) (e : error).

(** Calls are sequenced in an error monad that also collects the trace. *)
Definition M (A : Type) : Type := (completion A * list event)%type.

Definition ret {A} (a : A) : M A := (Return a, []).
Definition throw {A} (e : error) : M A := (Throw e, []).
Definition emit (ev : event) : M unit := (Return tt, [ev]).
Definition lift {A} (m : completion A) : M A := (m, []).

Definition bindM {A B} (m : M A) (k : A -> M B) : M B :=
  match m with
  | (Return a, tr) => let '(r, tr') := k a in (r, (tr ++ tr')%list)
  | (Throw e, tr) => (Throw e, tr)
  end.

#[export] Instance M_bind : MBind M := fun A B k m => bindM m k.
#[export] Instance M_ret : MRet M := fun A a => ret a.

Definition result {A} (m : M A) : completion A := fst m.
Definition trace {A} (m : M A) : list event := snd m.

(** [f(...args)] *)
Definition call (f : value) (args : list value) : M unit :=
  g ← lift (callable f); emit (ECall g args).

(** **** The constructor *)

(** [key.match(/^([^:\s]+):([^:.\s]+)$/)]: the groups exclude the colon, so a
    match splits the key at its first colon. *)
Fixpoint split_at_colon (s : string) : option (string * string) :=
  match s with
  | EmptyString => None
  | String c rest =>
      if (c =? ":")%char then Some (EmptyString, rest)
      else match split_at_colon rest with
           | Some (a, b) => Some (String c a, b)
           | None => None
           end
  end.

Fixpoint all_chars (f : ascii -> bool) (s : string) : bool :=
  match s with
  | EmptyString => true
  | String c rest => f c && all_chars f rest
  end.

(** [[^:\s]] and [[^:.\s]] *)
Definition name_char (c : ascii) : bool :=
  negb (c =? ":")%char && negb (is_space c).
Definition secret_char (c : ascii) : bool :=
  negb (c =? ":")%char && negb (c =? ".")%char && negb (is_space c).

Definition key_match (key : string) : option (string * string) :=
  match split_at_colon key with
  | Some (name, secret) =>
      if negb (name =? "") && negb (secret =? "")
         && all_chars name_char name && all_chars secret_char secret
      then Some (name, secret) else None
  | None => None
  end.

(** [if (normalOptions.key) { ... }] *)
Definition process_key (normalOptions : props) : completion props :=
  let key := get_prop normalOptions "key" in
  if truthy key then
    match key with
    | VStr k =>
        match key_match k with
        | None => Throw (ErrorInfo "invalid key parameter" 40400 404)
        | Some (keyName, keySecret) =>
            Return (set_prop (set_prop normalOptions "keyName" (VStr keyName))
                      "keySecret" (VStr keySecret))
        end
    | _ => Throw (TypeError "normalOptions.key.match is not a function")
    end
  else Return normalOptions.

Definition quote : string := String "034"%char EmptyString.

Definition reserved_clientId_msg : string :=
  "Can’t use " ++ quote ++ "*" ++ quote
  ++ " as a clientId as that string is reserved. (To change the default token request behaviour to use a wildcard clientId, use {defaultTokenParams: {clientId: "
  ++ quote ++ "*" ++ quote ++ "}})".

(** [if ('clientId' in normalOptions) { ... }] *)
Definition check_clientId (normalOptions : props) : completion unit :=
  if has_prop normalOptions "clientId" then
    let clientId := get_prop normalOptions "clientId" in
    if negb ((typeof clientId =? "string")
             || match clientId with VNull => true | _ => false end)
    then Throw (ErrorInfo "clientId must be either a string or null" 40012 400)
    else if match clientId with VStr s => (s =? "*") | _ => false end
    then Throw (ErrorInfo reserved_clientId_msg 40012 400)
    else Return tt
  else Return tt.

(** [new C(...)] of a collaborator's class *)
Definition construct {A} (class : string) (m : completion A) : M A :=
  emit (ENew class) ;; lift m.

(** [constructor(options, modules)] run on the object [this]; logging is not
    modelled. *)
Definition constructor {E : Environment} (this : ref) (options : value) : M t :=
  if negb (truthy options) then throw (Error "no options provided")
  else
    let optionsObj := Defaults_objectifyOptions options in
    normalOptions ← lift (Defaults_normaliseOptions optionsObj);
    normalOptions ← lift (process_key normalOptions);
    lift (check_clientId normalOptions);;
    http ← construct "Http" (Http_new normalOptions);
    auth ← construct "Auth" (Auth_new this normalOptions);
    channels ← construct "Channels" (Return (Channels.new this));
    push ← construct "Push" (Push_new this);
    ret (Build E normalOptions None None http auth channels push).

(** [new BaseClient(options, modules)] in a store of clients: the instance
    exists for the caller only if the constructor returns. *)
Definition new_BaseClient {E : Environment} (σ : gmap ref t) (options : value)
  : completion ref * gmap ref t * list event :=
  let this := fresh (dom σ) in
  match constructor this options with
  | (Return c, tr) => (Return this, <[this := c]> σ, tr)
  | (Throw e, tr) => (Throw e, σ, tr)
  end.

(** **** The operations *)

Section Operations.
Context {E : Environment}.

(** [baseUri(host)] *)
Definition baseUri (c : t) (host : string) : string :=
  Defaults_getHttpScheme (options c) ++ host ++ ":"
  ++ pretty (Defaults_getPort (options c) false).

(** [Utils.Format.msgpack] and [Utils.Format.json] *)
Definition format_of (useBinary : bool) : string :=
  if useBinary then "msgpack" else "json".

Definition useBinaryProtocol (c : t) : bool :=
  truthy (get_prop (options c) "useBinaryProtocol").

(** [this.http.supportsLinkHeaders ? undefined : format] *)
Definition envelope_of (c : t) : value :=
  if Http_supportsLinkHeaders (http c) then VUndefined
  else VStr (format_of (useBinaryProtocol c)).

(** Modelled from the spec: [Utils.promisify(this, name, args)] of
    ../util/utils, which is not part of these files: the operation
    "returns a Promise that settles with the operation's result or error".
    The promise [p] is created, the method is called with [args] followed by
    the node-style callback that settles [p], and a throw of that call
    rejects [p]. *)
Definition promisify (p : nat) (method : value -> M value) : M value :=
  match method (VFun (FSettle p)) with
  | (Return _, tr) => (Return (VPromise p), tr)
  | (Throw e, tr) => (Return (VPromise p), (tr ++ [EReject p e])%list)
  end.

(** Modelled from the spec: [Utils.arrIn(arr, val)] of ../util/utils, which
    is not part of these files: [val] is "in the supported HTTP method
    set". *)
Definition arrIn (arr : list string) (val : string) : bool :=
  existsb (String.eqb val) arr.

(** [stats], lines 110 to 124: the part run once [params] and [callback] are
    settled. *)
Definition stats_direct (this : ref) (c : t) (params callback : value) : M value :=
  let headers := Utils_defaultGetHeaders (options c) None in
  let envelope := envelope_of c in
  let headers := Utils_mixin headers (get_prop (options c) "headers") in
  emit (EPaginated
          {| res_client := this; res_path := "/stats"; res_headers := headers;
             res_envelope := envelope; res_bodyHandler := StatsBody;
             res_useHttpPaginatedResponse := false |}
          "get" params None callback);;
  ret VUndefined.

(** [stats(params, callback)].  [p] is the promise [new Promise] creates if
    the call creates one.  The call [this.stats(params, cb)] made by
    [promisify] has a callback, so it runs lines 110 to 124. *)
Definition stats (p : nat) (this : ref) (c : t) (params callback : value) : M value :=
  if is_undefined callback then
    if (typeof params =? "function") then stats_direct this c VNull params
    else promisify p (fun cb => stats_direct this c params cb)
  else stats_direct this c params callback.

(** [time], lines 138 to 172.  [HttpMethods.Get] is the string ['get'] that
    [request] compares the lower-cased method with. *)
Definition time_direct (this : ref) (c : t) (params callback : value) : M value :=
  let _callback := or_else callback (VFun FNoop) in
  let headers := Utils_defaultGetHeaders (options c) None in
  let headers :=
    if truthy (get_prop (options c) "headers")
    then Utils_mixin headers (get_prop (options c) "headers") else headers in
  let timeUri := fun host => baseUri c host ++ "/time" in
  emit (EHttpDo "get" this timeUri headers VNull params (TimeResponse this _callback));;
  ret VUndefined.

(** [time(params?, callback?)] *)
Definition time (p : nat) (this : ref) (c : t) (params callback : value) : M value :=
  if is_undefined callback then
    if (typeof params =? "function") then time_direct this c VNull params
    else promisify p (fun cb => time_direct this c params cb)
  else time_direct this c params callback.

(** [time - Utils.now()].  The difference is that of JavaScript's numbers
    when [time], [now] and the difference are safe integers; statements about
    the value stored assume so. *)
Definition minus_now (time : value) (now : Z) : number :=
  match time with
  | VNum t => Finite (t - now)
  | _ => match ToNumber time with Finite t => Finite (t - now) | NaN => NaN end
  end.

Definition set_serverTimeOffset (o : option number) (c : t) : t :=
  Build E (options c) (_currentFallback c) o (http c) (auth c) (channels c) (push c).

(** The callback [time] passes to [http.do], lines 152 to 171, called with
    [(err, res, headers, unpacked)] when [Utils.now()] is [now]: the call's
    completion and trace, and the store of clients after it. *)
Definition time_onResponse (now : Z) (this : ref) (_callback : value)
    (err res unpacked : value) (σ : gmap ref t) : M unit * gmap ref t :=
  if truthy err then (call _callback [err], σ)
  else
    match (res ← (if negb (truthy unpacked) then lift (JSON_parse res) else ret res);
           lift (get_index0 res)) with
    | (Throw e, tr) => ((Throw e, tr), σ)
    | (Return time, tr) =>
        if negb (truthy time) then
          (call _callback
             [VError (ErrorInfo "Internal error (unexpected result type from GET /time)"
                        50000 500)], σ)
        else
          let σ := alter (set_serverTimeOffset (Some (minus_now time now))) this σ in
          (call _callback [VNull; time], σ)
    end.

(** Running a continuation recorded by [http.do]. *)
Definition resume (k : continuation) (now : Z) (err res unpacked : value)
    (σ : gmap ref t) : M unit * gmap ref t :=
  match k with
  | TimeResponse this _callback => time_onResponse now this _callback err res unpacked σ
  end.

(** The headers [request] builds: the defaults of the method (lines 191 to
    194), then the client's headers and the custom ones (lines 205 to 208). *)
Definition request_headers (c : t) (_method : string) (version : Z)
    (customHeaders : value) : props :=
  let format := format_of (useBinaryProtocol c) in
  let headers :=
    if (_method =? "get")
    then Utils_defaultGetHeaders (options c) (Some (format, version))
    else Utils_defaultPostHeaders (options c) (Some (format, version)) in
  let headers := Utils_mixin headers (get_prop (options c) "headers") in
  if truthy customHeaders then Utils_mixin headers customHeaders else headers.

(** The body [request] sends (lines 202 to 204): encoded unless it is a
    string. *)
Definition encoded (c : t) (body : value) : value :=
  let encoder := if useBinaryProtocol c then msgpack_encode else JSON_stringify in
  if negb (typeof body =? "string") then encoder body else body.

(** [new PaginatedResource(this, path, headers, envelope, ..., true)], lines
    209 to 218. *)
Definition request_resource (this : ref) (c : t) (_method path : string) (version : Z)
    (customHeaders : value) : resource :=
  {| res_client := this; res_path := path;
     res_headers := request_headers c _method version customHeaders;
     res_envelope := envelope_of c;
     res_bodyHandler := RequestBody (useBinaryProtocol c);
     res_useHttpPaginatedResponse := true |}.

(** [request], lines 202 to 231, with [params], [_method] and [headers] as
    lines 184 to 194 compute them. *)
Definition request_direct (this : ref) (c : t) (method path : string) (version : Z)
    (params body customHeaders callback : value) : M value :=
  let params := or_else params (VObj []) in
  let _method := toLowerCase method in
  let body := encoded c body in
  let paginatedResource := request_resource this c _method path version customHeaders in
  if negb (arrIn Http_methods _method) then
    throw (ErrorInfo ("Unsupported method " ++ _method) 40500 405)
  else if arrIn Http_methodsWithBody _method then
    emit (EPaginated paginatedResource _method params (Some body) callback);;
    ret VUndefined
  else
    emit (EPaginated paginatedResource _method params None callback);;
    ret VUndefined.

(** [request(method, path, version, params, body, customHeaders, callback)].
    [promisify] calls [this.request] with [params || {}] and a callback. *)
Definition request (p : nat) (this : ref) (c : t) (method path : string) (version : Z)
    (params body customHeaders callback : value) : M value :=
  let params := or_else params (VObj []) in
  if is_undefined callback then
    promisify p (fun cb =>
      request_direct this c method path version params body customHeaders cb)
  else request_direct this c method path version params body customHeaders callback.




End Operations.

(** Modelled from the spec: the callback [Utils.promisify] (../util/utils,
    not part of these files) passes to the method settles the promise "with
    the operation's result or error": called with [(err, res)], it rejects
    with [err] when there is one and resolves with [res] otherwise. *)
Inductive settlement : Type :=
| Resolved (v : value)
| Rejected (reason : value).

Definition settle (args : list value) : settlement :=
  let err := default VUndefined (args !! 0%nat) in
  let res := default VUndefined (args !! 1%nat) in
  if truthy err then Rejected err else Resolved res.

(** The error [time] reports for a response without a usable first
    element. *)
Definition unexpected_result : value :=
  VError (ErrorInfo "Internal error (unexpected result type from GET /time)" 50000 500).


(** **** Reading a trace *)

(** The [(params, callback)] pairs handed to the HTTP layer. *)
Definition handed_over (ev : event) : list (value * value) :=
  match ev with
  | EPaginated _ _ params _ callback => [(params, callback)]
  | EHttpDo _ _ _ _ _ params (TimeResponse _ _callback) => [(params, _callback)]
  | _ => []
  end.

Definition requests_issued (tr : list event) : list (value * value) :=
  concat (map handed_over tr).

(** The invocations of callbacks. *)
Definition invocations (tr : list event) : list (fun_id * list value) :=
  concat (map (fun ev => match ev with ECall f args => [(f, args)] | _ => [] end) tr).

(** The constructions of collaborators. *)
Definition constructions (tr : list event) : list string :=
  concat (map (fun ev => match ev with ENew class => [class] | _ => [] end) tr).


(** **** What the specification says about the options *)

(** "the name:secret format": a non-empty name without colon or white space,
    a colon, and a non-empty secret without colon, full stop or white
    space. *)
Definition key_format (key : string) : Prop :=
  exists name secret : string,
    key = name ++ ":" ++ secret /\
    name <> "" /\ secret <> "" /\
    all_chars name_char name = true /\
    all_chars secret_char secret = true.

(** The options [new BaseClient(options)] refuses, each with the error the
    specification names for it: options that are absent; a key that is
    supplied and is not in the name:secret format; a [clientId] that is
    present and neither a string nor null, or the reserved ["*"]. *)
Inductive refused {E : Environment} (options : value) : error -> Prop :=
| refused_absent :
    truthy options = false ->
    refused options (Error "no options provided")
| refused_key (normalOptions : props) (key : string) :
    truthy options = true ->
    Defaults_normaliseOptions (Defaults_objectifyOptions options) = Return normalOptions ->
    get_prop normalOptions "key" = VStr key ->
    key <> "" ->
    ~ key_format key ->
    refused options (ErrorInfo "invalid key parameter" 40400 404)
| refused_clientId (normalOptions : props) (msg : string) :
    truthy options = true ->
    Defaults_normaliseOptions (Defaults_objectifyOptions options) = Return normalOptions ->
    (truthy (get_prop normalOptions "key") = false \/
     exists key, get_prop normalOptions "key" = VStr key /\ key_format key) ->
    has_prop normalOptions "clientId" = true ->
    (typeof (get_prop normalOptions "clientId") <> "string" /\
       get_prop normalOptions "clientId" <> VNull /\
       msg = "clientId must be either a string or null") \/
    (get_prop normalOptions "clientId" = VStr "*" /\ msg = reserved_clientId_msg) ->
    refused options (ErrorInfo msg 40012 400).

(** **** A test double of the environment *)

Definition test_env : Environment := {|
  Defaults_objectifyOptions := fun v =>
    match v with
    | VStr s => VObj [((if existsb (Ascii.eqb ":") (list_ascii_of_string s)
                        then "key" else "token"), v)]
    | _ => v
    end;
  Defaults_normaliseOptions := fun v =>
    match v with VObj ps => Return ps | _ => Return [] end;
  Defaults_getHttpScheme := fun _ => "https://";
  Defaults_getPort := fun _ _ => 443%Z;
  Utils_defaultGetHeaders := fun _ _ => [("accept", VStr "application/json")];
  Utils_defaultPostHeaders := fun _ _ =>
    [("accept", VStr "application/json"); ("content-type", VStr "application/json")];
  Utils_mixin := fun target source =>
    match source with VObj ps => Object_assign target ps | _ => target end;
  Http := bool;
  Http_new := fun _ => Return true;
  Http_supportsLinkHeaders := fun h => h;
  Http_methods := ["get"; "delete"; "post"; "put"; "patch"];
  Http_methodsWithBody := ["post"; "put"; "patch"];
  msgpack_encode := fun v => v;
  Auth := unit;
  Auth_new := fun _ _ => Return tt;
  Push := unit;
  Push_new := fun _ => Return tt;
  JSON_parse := fun v =>
    match v with
    | VNull | VStr "null" => Return VNull
    | VNum _ | VBool _ => Return v
    | _ => Throw (SyntaxError "Unexpected token in JSON")
    end;
  JSON_stringify := fun v =>
    match v with
    | VNull => VStr "null"
    | VObj [] => VStr "{}"
    | VArr [] => VStr "[]"
    | _ => VUndefined
    end;
  ToNumber := fun v =>
    match v with
    | VNum n => Finite n
    | VNull | VBool false => Finite 0
    | VBool true => Finite 1
    | _ => NaN
    end;
|}.

(** A client of the test double, as its constructor builds it from
    [{ key: "app.id:secret" }]. *)
Definition test_client : t (E:=test_env) :=
  Build test_env
    [("key", VStr "app.id:secret"); ("keyName", VStr "app.id"); ("keySecret", VStr "secret")]
    None None true tt (Channels.new 0) tt.


(** "No positional overload resolution": whatever the first argument of an
    operation is, it is the params the operation passes on. *)
Definition first_is_params (op : value -> value -> M value) : Prop :=
  forall first second : value,
    exists channel : value, requests_issued (trace (op first second)) = [(first, channel)].

(** Two clients of the test double in one store. *)
Definition test_store : gmap ref (t (E:=test_env)) :=
  <[1%nat := Build test_env
               [("key", VStr "app.id:secret"); ("keyName", VStr "app.id");
                ("keySecret", VStr "secret")]
               None None true tt (Channels.new 1) tt]>
    (<[0%nat := test_client]> ∅).


(** The test double, with an [Auth] whose constructor refuses options that
    carry neither a key nor a token. *)
Definition test_env_strict_auth : Environment := {|
  Defaults_objectifyOptions := @Defaults_objectifyOptions test_env;
  Defaults_normaliseOptions := @Defaults_normaliseOptions test_env;
  Defaults_getHttpScheme := @Defaults_getHttpScheme test_env;
  Defaults_getPort := @Defaults_getPort test_env;
  Utils_defaultGetHeaders := @Utils_defaultGetHeaders test_env;
  Utils_defaultPostHeaders := @Utils_defaultPostHeaders test_env;
  Utils_mixin := @Utils_mixin test_env;
  Http := bool;
  Http_new := fun _ => Return true;
  Http_supportsLinkHeaders := fun h => h;
  Http_methods := @Http_methods test_env;
  Http_methodsWithBody := @Http_methodsWithBody test_env;
  msgpack_encode := @msgpack_encode test_env;
  Auth := unit;
  Auth_new := fun _ options =>
    if truthy (get_prop options "key") || truthy (get_prop options "token")
    then Return tt
    else Throw (ErrorInfo "No authentication options provided" 40160 401);
  Push := unit;
  Push_new := fun _ => Return tt;
  JSON_parse := @JSON_parse test_env;
  JSON_stringify := @JSON_stringify test_env;
  ToNumber := @ToNumber test_env;
|}.


(** The client the test double constructs from
    [{ key: "app.id:secret", clientId: "alice" }]. *)
Definition test_client_alice : t (E:=test_env) :=
  Build test_env
    [("key", VStr "app.id:secret"); ("clientId", VStr "alice");
     ("keyName", VStr "app.id"); ("keySecret", VStr "secret")]
    None None true tt (Channels.new 0) tt.


(** The integers a JavaScript number holds exactly
    ([Number.MIN_SAFE_INTEGER] to [Number.MAX_SAFE_INTEGER]); a difference of
    two of them that is one of them is computed exactly. *)
Definition safe_integer (z : Z) : Prop :=
  (- 9007199254740991 <= z <= 9007199254740991)%Z.

(** The store of the two test clients after the second one has learnt a
    server time offset of 5 ms. *)
Definition test_store_synced : gmap ref (t (E:=test_env)) :=
  alter (set_serverTimeOffset (Some (Finite 5))) 1%nat test_store.


End BaseClient.

(** *** The HTTP request engine that uses [_currentFallback] *)

Module HttpFallback.
Import JS BaseClient.

(** How one attempt against a host ends: with a response, with a retryable
    failure (network error, 5xx, timeout), or with a failure that is not
    retried (4xx). *)
Inductive attempt : Type :=
| Succeeded
| Retryable
| NotRetryable.

(** The primary host followed by the fallback hosts, the maximum number of
    attempts and the cool-down window. *)
Record config : Type := {
  hosts : list string;
  maxAttempts : nat;
  cooldown : Z;
}.

(** The primary host is the first of the hosts. *)
Definition is_primary (cfg : config) (h : string) : bool :=
  match hosts cfg with
  | primary :: _ => (h =? primary)
  | [] => false
  end.

(** Modelled from the spec: the fallback algorithm of the HTTP layer
    ([Platform.Http], [http.do]), which is not part of these files.  "On a
    retryable failure [...] retry against the next untried host [...]; if all
    attempts are exhausted, surface the last error.  A host that previously
    succeeded is preferred on subsequent calls."  The candidates are tried
    in order; the result is the hosts attempted, how the last attempt ended
    and the fallback to record: a host other than the primary one that
    succeeded, for the cool-down window from [now]. *)
Fixpoint try_hosts (cfg : config) (respond : string -> attempt) (now : Z)
    (candidates : list string) : list string * attempt * option fallback :=
  match candidates with
  | [] => ([], Retryable, None)
  | h :: rest =>
      match respond h, rest with
      | Retryable, _ :: _ =>
          let '(tried, r, current) := try_hosts cfg respond now rest in
          (h :: tried, r, current)
      | Succeeded, _ =>
          ([h], Succeeded,
           if is_primary cfg h then None
           else Some {| host := h; validUntil := now + cooldown cfg |})
      | r, _ => ([h], r, None)
      end
  end.

(** Modelled from the spec: one request of the HTTP layer, which is not part
    of these files, at time [now] with the client's [_currentFallback]: the
    recorded host is "preferred on subsequent calls [...] until it fails or
    the cool-down expires"; when it fails or has expired the record is
    cleared and the hosts are tried in order, up to the maximum number of
    attempts, skipping a host already tried. *)
Definition do (cfg : config) (respond : string -> attempt) (now : Z)
    (current : option fallback) : list string * attempt * option fallback :=
  let candidates := take (maxAttempts cfg) (hosts cfg) in
  match current with
  | Some fb =>
      if (now <? validUntil fb)%Z then
        match respond (host fb) with
        | Retryable =>
            let untried := List.filter (fun h => negb (h =? host fb)) candidates in
            let '(tried, r, current) := try_hosts cfg respond now untried in
            (host fb :: tried, r, current)
        | r => ([host fb], r, Some fb)
        end
      else try_hosts cfg respond now candidates
  | None => try_hosts cfg respond now candidates
  end.

(** The scenario of the specification: a primary host and two fallbacks. *)
Definition test_config : config :=
  {| hosts := ["rest.ably.io"; "a.ably-realtime.com"; "b.ably-realtime.com"];
     maxAttempts := 3; cooldown := 600000 |}.

Definition only_b_responds (h : string) : attempt :=
  if (h =? "b.ably-realtime.com") then Succeeded else Retryable.

End HttpFallback.


(** ** Part II: properties *)

(** *** PushChannelSubscription *)

Section PushChannelSubscriptionFacts.
Import JS PushChannelSubscription.

Lemma fromValues_toJSON_own (s : t) :
  own (fromValues (toJSON s)) =
  [("channel", channel s); ("deviceId", deviceId s); ("clientId", clientId s)].
Proof. reflexivity. Qed.

(** C8: [fromValues(s.toJSON())] is a [PushChannelSubscription] whose
    [channel], [deviceId] and [clientId] are those of [s], and [toJSON]
    produces exactly the object with those three fields (so the round trip
    holds exactly the three fields, and serialising again gives the same
    object). *)
Theorem PushChannelSubscription_roundtrip (s : t) :
  channel (fromValues (toJSON s)) = channel s /\
  deviceId (fromValues (toJSON s)) = deviceId s /\
  clientId (fromValues (toJSON s)) = clientId s /\
  toJSON s = [("channel", channel s); ("deviceId", deviceId s); ("clientId", clientId s)] /\
  own (fromValues (toJSON s)) = toJSON s /\
  toJSON (fromValues (toJSON s)) = toJSON s.
Proof.
  destruct s as [o]. unfold channel, deviceId, clientId.
  rewrite fromValues_toJSON_own. cbn [own get_prop].
  repeat split.
Qed.

(** The loop of [fromValuesArray], started at index [i] on a result whose
    first [i] slots are filled, fills the remaining ones. *)
Lemma for_upto_fill (values : list props) (fuel i : nat) :
  (fuel + i = length values)%nat ->
  for_upto fuel i (length values)
    (fun i result => <[i := Some (fromValues (default [] (values !! i)))]> result)
    (((fun v => Some (fromValues v)) <$> take i values) ++ replicate fuel None)%list
  = (fun v => Some (fromValues v)) <$> values.
Proof.
  revert i. induction fuel as [|fuel IH]; intros i Hlen.
  - simpl in *. subst i. rewrite firstn_all. by rewrite app_nil_r.
  - cbn [for_upto].
    assert (Hlt : (i < length values)%nat) by lia.
    destruct (Nat.ltb_spec i (length values)) as [_|Hge]; [|lia].
    destruct (lookup_lt_is_Some_2 values i Hlt) as [v Hv].
    rewrite Hv. cbn [default].
    rewrite <- (IH (S i)) by lia.
    f_equal.
    rewrite (take_S_r _ _ _ Hv), fmap_app. cbn [fmap list_fmap].
    rewrite <- app_assoc. cbn [app replicate].
    set (pre := (fun v0 => Some (fromValues v0)) <$> take i values).
    assert (Hpre : length pre = i).
    { unfold pre. rewrite length_fmap, length_take. lia. }
    replace i with (length pre + 0)%nat at 1 by lia.
    rewrite insert_app_r. reflexivity.
Qed.

Lemma fromValuesArray_fmap (values : list props) :
  fromValuesArray values = (fun v => Some (fromValues v)) <$> values.
Proof.
  unfold fromValuesArray.
  exact (for_upto_fill values (length values) 0 (Nat.add_0_r _)).
Qed.

(** C10: [fromValuesArray] applies [fromValues] element by element: the
    result has the length of the input, every slot is filled, and slot [i]
    holds [fromValues] of the [i]-th input, in the input's order. *)
Theorem fromValuesArray_elementwise (values : list props) :
  length (fromValuesArray values) = length values /\
  (forall i, fromValuesArray values !! i = (fun v => Some (fromValues v)) <$> (values !! i)) /\
  fromValuesArray values = map (fun v => Some (fromValues v)) values.
Proof.
  rewrite fromValuesArray_fmap. split; [|split].
  - apply length_fmap.
  - intros i. apply list_lookup_fmap.
  - reflexivity.
Qed.

End PushChannelSubscriptionFacts.

(** *** Channels *)

Section ChannelsFacts.
Import JS Channels.
Context {C : ChannelClass}.

Lemma get_existing (this : t) (σ : gmap ref Channel) name o channel :
  all this !! String_ name = Some channel ->
  fst (fst (get this σ name o)) = channel /\ snd (fst (get this σ name o)) = this.
Proof. intros Hl. unfold get. rewrite Hl. by destruct o. Qed.

Lemma get_absent (this : t) (σ : gmap ref Channel) name o :
  all this !! String_ name = None ->
  (fst (fst (get this σ name o)) ∉ dom σ) /\
  all (snd (fst (get this σ name o))) = <[String_ name := fst (fst (get this σ name o)) ]> (all this) /\
  snd (get this σ name o) !! fst (fst (get this σ name o))
    = Some (Channel_new (client this) (String_ name) o) /\
  (forall r, r ∈ dom σ -> snd (get this σ name o) !! r = σ !! r).
Proof.
  intros Hl. unfold get. rewrite Hl. cbn.
  pose proof (is_fresh (dom σ)) as Hfresh.
  repeat split; [done | by rewrite lookup_insert_eq |].
  intros r Hr. rewrite lookup_insert_ne; [done|]. by intros <-.
Qed.

Lemma get_stored (this : t) (σ : gmap ref Channel) name o :
  all (snd (fst (get this σ name o))) !! String_ name = Some (fst (fst (get this σ name o))).
Proof.
  destruct (all this !! String_ name) as [channel|] eqn:Hl.
  - destruct (get_existing this σ name o channel Hl) as [-> ->]. done.
  - destruct (get_absent this σ name o Hl) as (_ & -> & _). by rewrite lookup_insert_eq.
Qed.

Lemma get_other_names (this : t) (σ : gmap ref Channel) name o other :
  other ≠ String_ name ->
  all (snd (fst (get this σ name o))) !! other = all this !! other.
Proof.
  intros Hne. destruct (all this !! String_ name) as [channel|] eqn:Hl.
  - by destruct (get_existing this σ name o channel Hl) as [_ ->].
  - destruct (get_absent this σ name o Hl) as (_ & -> & _). by rewrite lookup_insert_ne.
Qed.

Lemma release_get_fresh (this : t) (σ : gmap ref Channel) name o :
  fst (fst (get (release this name) σ name o)) ∉ dom σ.
Proof.
  apply get_absent. unfold release. cbn. apply lookup_delete_eq.
Qed.

(** C1: [all] maps a name to at most one channel; [get] returns the channel
    stored under [String(name)] when there is one, leaving the set as it is,
    and otherwise creates a channel that did not exist before, stores it
    under that name and returns it; in both cases the channel returned is
    the one stored, so a second [get] of the same name (or of a name with
    the same string form) returns the same instance and leaves the set
    unchanged. *)
Theorem Channels_get_idempotent (this : t) (σ : gmap ref Channel)
    (name name' : primitive) (o o' : option ChannelOptions)
    (Hname : String_ name' = String_ name) :
  let '(c1, this1, σ1) := get this σ name o in
  let '(c2, this2, σ2) := get this1 σ1 name' o' in
  match all this !! String_ name with
  | Some c => c1 = c /\ this1 = this
  | None =>
      (c1 ∉ dom σ) /\ all this1 = <[String_ name := c1]> (all this) /\
      σ1 !! c1 = Some (Channel_new (client this) (String_ name) o)
  end /\
  all this1 !! String_ name = Some c1 /\
  c2 = c1 /\ this2 = this1.
Proof.
  pose proof (get_stored this σ name o) as Hst.
  pose proof (get_existing this σ name o) as Hex.
  pose proof (get_absent this σ name o) as Hab.
  destruct (get this σ name o) as [[c1 this1] σ1].
  pose proof (get_existing this1 σ1 name' o' c1) as Hex2.
  destruct (get this1 σ1 name' o') as [[c2 this2] σ2].
  cbn [fst snd] in *. split; [|split].
  - destruct (all this !! String_ name) as [c|].
    + by apply Hex.
    + destruct (Hab eq_refl) as (Ha & Hb & Hc & _). done.
  - exact Hst.
  - apply Hex2. by rewrite Hname.
Qed.

End ChannelsFacts.

Section ChannelsExamples.
Import JS Channels.

Lemma Channels_get_idempotent_witness :
  String_ (PStr "1") = String_ (PNum 1) /\
  let '(c1, this1, σ1) := get (C:=example_class) (new 0) ∅ (PNum 1) None in
  let '(c2, this2, σ2) := get (C:=example_class) this1 σ1 (PStr "1") (Some 3%nat) in
  match all (new 0) !! String_ (PNum 1) with
  | Some c => c1 = c /\ this1 = new 0
  | None =>
      (c1 ∉ dom (∅ : gmap ref (string * option nat))) /\
      all this1 = <[String_ (PNum 1) := c1]> (all (new 0)) /\
      σ1 !! c1 = Some ("1", None)
  end /\
  all this1 !! String_ (PNum 1) = Some c1 /\
  c2 = c1 /\ this2 = this1.
Proof.
  split; [reflexivity|].
  exact (Channels_get_idempotent (C:=example_class) (new 0) ∅
           (PNum 1) (PStr "1") None (Some 3%nat) eq_refl).
Defined.

End ChannelsExamples.

(** *** Property maps and the key format *)

Section PropsFacts.
Import JS.

Lemma get_prop_set_prop_ne (o : props) (k k' : string) (v : value) :
  k <> k' -> get_prop (set_prop o k v) k' = get_prop o k'.
Proof.
  intros Hne. induction o as [|[k0 v0] o IH]; cbn.
  - destruct (String.eqb_spec k k'); congruence.
  - destruct (String.eqb_spec k0 k) as [->|Hk0]; cbn.
    + destruct (String.eqb_spec k k'); congruence.
    + destruct (String.eqb_spec k0 k'); congruence.
Qed.

Lemma has_prop_set_prop_ne (o : props) (k k' : string) (v : value) :
  k <> k' -> has_prop (set_prop o k v) k' = has_prop o k'.
Proof.
  intros Hne. induction o as [|[k0 v0] o IH]; cbn.
  - destruct (String.eqb_spec k k'); [congruence | reflexivity].
  - destruct (String.eqb_spec k0 k) as [->|Hk0]; cbn.
    + reflexivity.
    + by rewrite IH.
Qed.

Lemma get_prop_set_prop_eq (o : props) (k : string) (v : value) :
  get_prop (set_prop o k v) k = v.
Proof.
  induction o as [|[k0 v0] o IH]; cbn.
  - by rewrite String.eqb_refl.
  - destruct (String.eqb_spec k0 k) as [->|Hk0]; cbn.
    + by rewrite String.eqb_refl.
    + destruct (String.eqb_spec k0 k); congruence.
Qed.

End PropsFacts.

Section KeyFormat.
Import JS BaseClient.

Lemma split_at_colon_sound (s a b : string) :
  split_at_colon s = Some (a, b) -> s = a ++ ":" ++ b.
Proof.
  revert a. induction s as [|c s IH]; intros a; cbn; [done|].
  destruct (Ascii.eqb_spec c ":") as [->|Hc].
  - intros [= <- <-]. reflexivity.
  - destruct (split_at_colon s) as [[a' b']|]; [|done].
    intros [= <- <-]. by rewrite (IH a' eq_refl) at 1.
Qed.

Lemma split_at_colon_complete (a b : string) :
  all_chars name_char a = true ->
  split_at_colon (a ++ ":" ++ b) = Some (a, b).
Proof.
  induction a as [|c a IH]; cbn [all_chars].
  { by intros _. }
  intros [Hc Ha]%andb_prop. unfold name_char in Hc.
  apply andb_prop in Hc as [Hc _]. apply negb_true_iff in Hc.
  change (String c a ++ ":" ++ b) with (String c (a ++ ":" ++ b)).
  cbn [split_at_colon]. rewrite Hc. by rewrite (IH Ha).
Qed.

Lemma string_eqb_empty (s : string) : (s =? "") = false <-> s <> "".
Proof. apply String.eqb_neq. Qed.

(** The matcher decides the format, and its groups are the name and the
    secret. *)
Lemma key_match_spec (key name secret : string) :
  key_match key = Some (name, secret) <->
  key = name ++ ":" ++ secret /\ name <> "" /\ secret <> "" /\
  all_chars name_char name = true /\ all_chars secret_char secret = true.
Proof.
  unfold key_match. split.
  - destruct (split_at_colon key) as [[a b]|] eqn:Hs; [|done].
    destruct (negb (a =? "") && negb (b =? "") && all_chars name_char a
              && all_chars secret_char b) eqn:Hc; [|done].
    intros [= <- <-].
    repeat (apply andb_prop in Hc as [Hc ?]).
    repeat split; try done.
    + by apply split_at_colon_sound.
    + apply String.eqb_neq. by apply negb_true_iff.
    + apply String.eqb_neq. by apply negb_true_iff.
  - intros (-> & Hn & Hs & Hcn & Hcs).
    rewrite (split_at_colon_complete _ _ Hcn).
    apply String.eqb_neq in Hn, Hs. by rewrite Hn, Hs, Hcn, Hcs.
Qed.

Lemma key_match_None (key : string) :
  key_match key = None <-> ~ key_format key.
Proof.
  split.
  - intros Hnone (name & secret & Hfmt).
    apply key_match_spec in Hfmt. congruence.
  - intros Hnot. destruct (key_match key) as [[name secret]|] eqn:Hm; [|done].
    exfalso. apply Hnot. exists name, secret. by apply key_match_spec.
Qed.

End KeyFormat.

(** *** The constructor *)

Section ConstructorFacts.
Import JS BaseClient.
Context {E : Environment}.

Lemma constructor_absent (this : ref) (options : value) :
  truthy options = false ->
  constructor this options = (Throw (Error "no options provided"), []).
Proof. intros Hf. unfold constructor. by rewrite Hf. Qed.

Lemma constructor_key_throws (this : ref) (options : value) (n : props) (e : error) :
  truthy options = true ->
  Defaults_normaliseOptions (Defaults_objectifyOptions options) = Return n ->
  process_key n = Throw e ->
  constructor this options = (Throw e, []).
Proof.
  intros Ht Hn Hk. unfold constructor. rewrite Ht. cbn.
  rewrite Hn. cbn. by rewrite Hk.
Qed.

Lemma constructor_clientId_throws (this : ref) (options : value) (n n' : props) (e : error) :
  truthy options = true ->
  Defaults_normaliseOptions (Defaults_objectifyOptions options) = Return n ->
  process_key n = Return n' ->
  check_clientId n' = Throw e ->
  constructor this options = (Throw e, []).
Proof.
  intros Ht Hn Hk Hc. unfold constructor. rewrite Ht. cbn.
  rewrite Hn. cbn. rewrite Hk. cbn. by rewrite Hc.
Qed.

Lemma process_key_keeps_clientId (n n' : props) :
  process_key n = Return n' ->
  has_prop n' "clientId" = has_prop n "clientId" /\
  get_prop n' "clientId" = get_prop n "clientId".
Proof.
  unfold process_key. destruct (truthy (get_prop n "key")); [|by intros [= <-]].
  destruct (get_prop n "key") as [| | | |k| | | | |]; try done.
  destruct (key_match k) as [[keyName keySecret]|]; [|done].
  intros [= <-].
  rewrite !has_prop_set_prop_ne, !get_prop_set_prop_ne by done. done.
Qed.

Lemma process_key_accepts (n : props) :
  truthy (get_prop n "key") = false \/
  (exists key, get_prop n "key" = VStr key /\ key_format key) ->
  exists n', process_key n = Return n'.
Proof.
  unfold process_key. intros [Hf|(key & Hk & name & secret & Hfmt)].
  - rewrite Hf. eauto.
  - rewrite Hk. apply key_match_spec in Hfmt as Hm. rewrite Hm.
    destruct (truthy (VStr key)); eauto.
Qed.

Lemma new_BaseClient_throws (this : ref) (σ : gmap ref t) (options : value) (e : error) :
  (forall this, constructor this options = (Throw e, [])) ->
  new_BaseClient σ options = (Throw e, σ, []).
Proof. intros Hc. unfold new_BaseClient. by rewrite Hc. Qed.

(** C9: the constructor refuses absent options with [Error], a supplied key
    that is not in the name:secret format with [ErrorInfo] 40400, and a
    [clientId] that is present and neither a string nor null, or is ["*"],
    with [ErrorInfo] 40012; it then throws before any of [Http], [Auth],
    [Channels] and [Push] is constructed, and [new BaseClient] leaves the
    store of clients as it was. *)
Theorem constructor_refuses (this : ref) (σ : gmap ref t) (options : value) (e : error)
    (Hrefused : refused options e) :
  constructor this options = (Throw e, []) /\
  constructions (trace (constructor this options)) = [] /\
  new_BaseClient σ options = (Throw e, σ, []).
Proof.
  assert (Hall : forall this, constructor this options = (Throw e, [])).
  { clear this. intros this.
    destruct Hrefused as [Hf | n key Ht Hn Hkey Hne Hfmt | n msg Ht Hn Hkey Hhas Hcid].
    - by apply constructor_absent.
    - apply (constructor_key_throws _ _ n); [done..|].
      unfold process_key. rewrite Hkey. cbn.
      apply String.eqb_neq in Hne. rewrite Hne. cbn.
      apply key_match_None in Hfmt. by rewrite Hfmt.
    - destruct (process_key_accepts n Hkey) as [n' Hn'].
      destruct (process_key_keeps_clientId n n' Hn') as [Hhas' Hget'].
      apply (constructor_clientId_throws _ _ n n'); [done..|].
      unfold check_clientId. rewrite Hhas', Hhas, Hget'.
      destruct Hcid as [(Hty & Hnull & ->) | (-> & ->)]; [|done].
      apply String.eqb_neq in Hty. rewrite Hty.
      by destruct (get_prop n "clientId"). }
  split; [apply Hall | split].
  - by rewrite Hall.
  - by apply new_BaseClient_throws.
Qed.

End ConstructorFacts.

Section ConstructorExamples.
Import JS BaseClient.

Lemma constructor_refuses_witness :
  refused (E:=test_env) (VObj [("key", VStr "not a key")])
    (ErrorInfo "invalid key parameter" 40400 404) /\
  constructor (E:=test_env) 0 (VObj [("key", VStr "not a key")])
    = (Throw (ErrorInfo "invalid key parameter" 40400 404), []) /\
  constructions (trace (constructor (E:=test_env) 0 (VObj [("key", VStr "not a key")]))) = [] /\
  new_BaseClient (E:=test_env) ∅ (VObj [("key", VStr "not a key")])
    = (Throw (ErrorInfo "invalid key parameter" 40400 404), ∅, []).
Proof.
  assert (Href : refused (E:=test_env) (VObj [("key", VStr "not a key")])
                   (ErrorInfo "invalid key parameter" 40400 404)).
  { apply (refused_key (E:=test_env) _ [("key", VStr "not a key")] "not a key");
      [reflexivity | reflexivity | reflexivity | discriminate |].
    apply key_match_None. reflexivity. }
  split; [exact Href|].
  exact (constructor_refuses (E:=test_env) 0 ∅ _ _ Href).
Defined.

(** A well-formed key is accepted and split into its name and secret. *)
Example constructor_accepts :
  result (constructor (E:=test_env) 0 (VStr "app.id:secret")) = Return test_client /\
  constructions (trace (constructor (E:=test_env) 0 (VStr "app.id:secret")))
    = ["Http"; "Auth"; "Channels"; "Push"].
Proof. split; reflexivity. Qed.

(** A clientId that is invalid is refused also when no key is given. *)
Example constructor_refuses_wildcard :
  result (constructor (E:=test_env) 0 (VObj [("token", VStr "t"); ("clientId", VStr "*")]))
  = Throw (ErrorInfo reserved_clientId_msg 40012 400).
Proof. reflexivity. Qed.

End ConstructorExamples.

(** *** The operations: how a call reaches the HTTP layer *)

Section OperationFacts.
Import JS BaseClient.
Context {E : Environment}.

Lemma or_else_idem (a b : value) :
  truthy b = true -> or_else (or_else a b) b = or_else a b.
Proof. intros Hb. unfold or_else. destruct (truthy a) eqn:Ha; by rewrite ?Ha, ?Hb. Qed.

Lemma or_else_fun (a : value) (f : fun_id) :
  (typeof a =? "function") = true -> or_else a (VFun f) = a.
Proof. by destruct a. Qed.

(** The calls [promisify] makes are calls of the method itself. *)
Lemma stats_reentry (p : nat) (this : ref) (c : t) (params callback : value) :
  is_undefined callback = false ->
  stats p this c params callback = stats_direct this c params callback.
Proof. intros Hc. unfold stats. by rewrite Hc. Qed.

Lemma time_reentry (p : nat) (this : ref) (c : t) (params callback : value) :
  is_undefined callback = false ->
  time p this c params callback = time_direct this c params callback.
Proof. intros Hc. unfold time. by rewrite Hc. Qed.

Lemma request_reentry (p : nat) (this : ref) (c : t) (method path : string) (version : Z)
    (params body customHeaders callback : value) :
  is_undefined callback = false ->
  request p this c method path version (or_else params (VObj [])) body customHeaders callback
  = request_direct this c method path version (or_else params (VObj [])) body
      customHeaders callback.
Proof. intros Hc. unfold request. rewrite Hc. by rewrite or_else_idem. Qed.

Lemma stats_direct_issues (this : ref) (c : t) (params callback : value) :
  result (stats_direct this c params callback) = Return VUndefined /\
  requests_issued (trace (stats_direct this c params callback)) = [(params, callback)] /\
  invocations (trace (stats_direct this c params callback)) = [].
Proof. done. Qed.

Lemma time_direct_issues (this : ref) (c : t) (params callback : value) :
  result (time_direct this c params callback) = Return VUndefined /\
  requests_issued (trace (time_direct this c params callback))
    = [(params, or_else callback (VFun FNoop))] /\
  invocations (trace (time_direct this c params callback)) = [].
Proof. done. Qed.

Lemma request_direct_supported (this : ref) (c : t) (method path : string) (version : Z)
    (params body customHeaders callback : value) :
  arrIn Http_methods (toLowerCase method) = true ->
  request_direct this c method path version params body customHeaders callback
  = (Return VUndefined,
     [EPaginated (request_resource this c (toLowerCase method) path version customHeaders)
        (toLowerCase method) (or_else params (VObj []))
        (if arrIn Http_methodsWithBody (toLowerCase method)
         then Some (encoded c body) else None)
        callback]).
Proof.
  intros Hin. unfold request_direct. rewrite Hin. cbn [negb].
  by destruct (arrIn Http_methodsWithBody (toLowerCase method)).
Qed.

Lemma request_direct_unsupported (this : ref) (c : t) (method path : string) (version : Z)
    (params body customHeaders callback : value) :
  arrIn Http_methods (toLowerCase method) = false ->
  request_direct this c method path version params body customHeaders callback
  = (Throw (ErrorInfo ("Unsupported method " ++ toLowerCase method) 40500 405), []).
Proof. intros Hin. unfold request_direct. by rewrite Hin. Qed.

(** [request] for a supported and for an unsupported method. *)
Lemma request_supported (p : nat) (this : ref) (c : t)
    (method path : string) (version : Z) (params body customHeaders callback : value) :
  arrIn Http_methods (toLowerCase method) = true ->
  request p this c method path version params body customHeaders callback
  = (Return (if is_undefined callback then VPromise p else VUndefined),
     [EPaginated (request_resource this c (toLowerCase method) path version customHeaders)
        (toLowerCase method) (or_else params (VObj []))
        (if arrIn Http_methodsWithBody (toLowerCase method)
         then Some (encoded c body) else None)
        (if is_undefined callback then VFun (FSettle p) else callback)]).
Proof.
  intros Hin. unfold request.
  destruct (is_undefined callback); unfold promisify;
    rewrite request_direct_supported by done; by rewrite or_else_idem.
Qed.

Lemma request_unsupported (p : nat) (this : ref) (c : t)
    (method path : string) (version : Z) (params body customHeaders callback : value) :
  arrIn Http_methods (toLowerCase method) = false ->
  request p this c method path version params body customHeaders callback
  = if is_undefined callback
    then (Return (VPromise p),
          [EReject p (ErrorInfo ("Unsupported method " ++ toLowerCase method) 40500 405)])
    else (Throw (ErrorInfo ("Unsupported method " ++ toLowerCase method) 40500 405), []).
Proof.
  intros Hin. unfold request.
  destruct (is_undefined callback); unfold promisify;
    by rewrite request_direct_unsupported.
Qed.


End OperationFacts.

(** *** The operations: callback or promise *)

Section ContractFacts.
Import JS BaseClient.
Context {E : Environment}.

(** The two tests of lines 102 to 103 and 129 to 130, case by case. *)
Ltac by_overload :=
  match goal with
  | |- context [is_undefined ?callback] =>
      destruct (is_undefined callback); [|done];
      match goal with
      | |- context [typeof ?params =? "function"] =>
          by destruct (typeof params =? "function")
      end
  end.

(** C2, as the code has it: [request] passes its [params] and its callback on
    by position alone, while [stats] and [time] resolve an overload: called
    with no second argument and a function as the first, they take the first
    argument for the callback and [null] for the params; the same call with
    anything else first returns a promise and passes the first argument as
    the params. *)
Theorem stats_time_resolve_overload (p : nat) (this : ref) (c : t)
    (first second : value) (method path : string) (version : Z)
    (body customHeaders : value) :
  requests_issued (trace (stats p this c first second))
  = [ if is_undefined second
      then (if (typeof first =? "function")
            then (VNull, first) else (first, VFun (FSettle p)))
      else (first, second) ] /\
  requests_issued (trace (time p this c first second))
  = [ if is_undefined second
      then (if (typeof first =? "function")
            then (VNull, first) else (first, VFun (FSettle p)))
      else (first, or_else second (VFun FNoop)) ] /\
  requests_issued
    (trace (request p this c method path version first body customHeaders second))
  = if arrIn Http_methods (toLowerCase method)
    then [ (or_else first (VObj []),
            if is_undefined second then VFun (FSettle p) else second) ]
    else [].
Proof.
  split; [|split].
  - unfold stats. by_overload.
  - unfold time. destruct (is_undefined second); [|done].
    destruct (typeof first =? "function") eqn:Hf; [|done].
    destruct (time_direct_issues this c VNull first) as (_ & -> & _).
    by rewrite or_else_fun.
  - destruct (arrIn Http_methods (toLowerCase method)) eqn:Hin.
    + by rewrite request_supported.
    + rewrite request_unsupported by done. by destruct (is_undefined second).
Qed.

End ContractFacts.

Section ContractExamples.
Import JS BaseClient.

(** A function in the first position of [stats] and of [time] is taken for
    the callback and the params become [null]; an object in the same
    position is taken for the params and the call returns a promise: what
    the first argument means is decided by its runtime type. *)
Lemma stats_time_first_argument_by_type :
  let f := VFun (FUser 1) in
  stats (E:=test_env) 7 0 test_client f VUndefined
    = stats (E:=test_env) 7 0 test_client VNull f /\
  requests_issued (trace (stats (E:=test_env) 7 0 test_client f VUndefined))
    = [(VNull, f)] /\
  result (stats (E:=test_env) 7 0 test_client f VUndefined) = Return VUndefined /\
  requests_issued (trace (stats (E:=test_env) 7 0 test_client (VObj []) VUndefined))
    = [(VObj [], VFun (FSettle 7))] /\
  result (stats (E:=test_env) 7 0 test_client (VObj []) VUndefined) = Return (VPromise 7) /\
  time (E:=test_env) 7 0 test_client f VUndefined
    = time (E:=test_env) 7 0 test_client VNull f /\
  requests_issued (trace (time (E:=test_env) 7 0 test_client f VUndefined))
    = [(VNull, f)] /\
  requests_issued (trace (time (E:=test_env) 7 0 test_client (VObj []) VUndefined))
    = [(VObj [], VFun (FSettle 7))] /\
  ~ first_is_params (stats (E:=test_env) 7 0 test_client) /\
  ~ first_is_params (time (E:=test_env) 7 0 test_client).
Proof.
  cbn zeta. repeat split.
  - intros Hpos. destruct (Hpos (VFun (FUser 1)) VUndefined) as [channel Hch]. discriminate Hch.
  - intros Hpos. destruct (Hpos (VFun (FUser 1)) VUndefined) as [channel Hch]. discriminate Hch.
Qed.


End ContractExamples.

(** *** The response to [time] and the server time offset *)

Section TimeFacts.
Import JS BaseClient.
Context {E : Environment}.

(** The response callback of [time], case by case. *)
Lemma time_onResponse_cases (now : Z) (this : ref) (f : fun_id)
    (err res unpacked : value) (σ : gmap ref t) :
  time_onResponse now this (VFun f) err res unpacked σ =
  if truthy err then ((Return tt, [ECall f [err]]), σ)
  else
    match bind (if negb (truthy unpacked) then JSON_parse res else Return res) get_index0 with
    | Throw e => ((Throw e, []), σ)
    | Return time =>
        if negb (truthy time) then
          ((Return tt,
            [ECall f [VError (ErrorInfo "Internal error (unexpected result type from GET /time)"
                                50000 500)]]), σ)
        else
          ((Return tt, [ECall f [VNull; time]]),
           alter (set_serverTimeOffset (Some (minus_now time now))) this σ)
    end.
Proof.
  unfold time_onResponse. destruct (truthy err); [done|].
  destruct (truthy unpacked); cbn.
  - destruct (get_index0 res) as [time|e]; cbn; [|done].
    by destruct (truthy time).
  - destruct (JSON_parse res) as [res'|e]; cbn; [|done].
    destruct (get_index0 res') as [time|e]; cbn; [|done].
    by destruct (truthy time).
Qed.

(** C4, as the code has it: when the transport reports an error, or the
    response can be parsed and indexed, the response callback of [time]
    returns normally and invokes the callback exactly once: with the
    transport's error; or, when the first element of the response is falsy
    (missing, [0], [null], ...), with the internal [ErrorInfo] of code 50000
    and status 500; or with [(null, time)]. *)
Theorem time_onResponse_reports_once (now : Z) (this : ref) (f : fun_id)
    (err res unpacked time : value) (σ : gmap ref t)
    (Husable : truthy err = true \/
               bind (if negb (truthy unpacked) then JSON_parse res else Return res)
                 get_index0 = Return time) :
  result (fst (time_onResponse now this (VFun f) err res unpacked σ)) = Return tt /\
  invocations (trace (fst (time_onResponse now this (VFun f) err res unpacked σ)))
  = [ (f, if truthy err then [err]
          else if truthy time then [VNull; time]
          else [unexpected_result]) ].
Proof.
  rewrite time_onResponse_cases. destruct Husable as [Herr|Hok].
  - by rewrite Herr.
  - destruct (truthy err); [done|]. rewrite Hok.
    by destruct (truthy time).
Qed.

(** When parsing the response throws, the callback is not invoked. *)
Lemma time_onResponse_parse_throws (now : Z) (this : ref) (_callback : value)
    (res : value) (e : error) (σ : gmap ref t) :
  JSON_parse res = Throw e ->
  time_onResponse now this _callback VNull res VUndefined σ = ((Throw e, []), σ).
Proof. intros Hp. unfold time_onResponse. cbn. by rewrite Hp. Qed.

(** At the response [(null, undefined, undefined, true)] and at
    [(null, null, undefined, true)], reading [res[0]] throws a [TypeError] out
    of the response callback; the callback of [time] is not invoked, with no
    error and with no time, and the client is left as it was. *)
Lemma time_onResponse_unindexable_throws (now : Z) (this : ref) (_callback : value)
    (σ : gmap ref t) :
  time_onResponse now this _callback VNull VUndefined (VBool true) σ
  = ((Throw (TypeError "Cannot read properties of undefined (reading '0')"), []), σ) /\
  time_onResponse now this _callback VNull VNull (VBool true) σ
  = ((Throw (TypeError "Cannot read properties of null (reading '0')"), []), σ) /\
  invocations (trace (fst (time_onResponse now this _callback VNull VUndefined (VBool true) σ)))
  = [].
Proof. done. Qed.

(** Called without a callback, [time] hands to the HTTP layer the callback
    that settles the promise it returns; a usable response settles that
    promise with the error or with the time. *)
Lemma time_promise_settles (p : nat) (now : Z) (this : ref) (c : t)
    (params err res unpacked first : value) (σ : gmap ref t) :
  (typeof params =? "function") = false ->
  truthy err = true \/
  bind (if negb (truthy unpacked) then JSON_parse res else Return res) get_index0
    = Return first ->
  time p this c params VUndefined
  = (Return (VPromise p),
     [EHttpDo "get" this (fun host => baseUri c host ++ "/time")
        (if truthy (get_prop (options c) "headers")
         then Utils_mixin (Utils_defaultGetHeaders (options c) None)
                (get_prop (options c) "headers")
         else Utils_defaultGetHeaders (options c) None)
        VNull params (TimeResponse this (VFun (FSettle p)))]) /\
  exists args,
    invocations (trace (fst (resume (TimeResponse this (VFun (FSettle p))) now
                               err res unpacked σ)))
    = [(FSettle p, args)] /\
    settle args = if truthy err then Rejected err
                  else if truthy first then Resolved first
                  else Rejected unexpected_result.
Proof.
  intros Hfun Husable. split.
  - unfold time. cbn. by rewrite Hfun.
  - cbn [resume]. rewrite time_onResponse_cases.
    destruct Husable as [Herr|Hok].
    + rewrite Herr. eexists. split; [reflexivity|].
      unfold settle. cbn. by rewrite Herr.
    + destruct (truthy err) eqn:Herr.
      * eexists. split; [reflexivity|]. unfold settle. cbn. by rewrite Herr.
      * rewrite Hok. destruct (truthy first) eqn:Hfirst; cbn;
          eexists; (split; [reflexivity|]); done.
Qed.

Lemma time_onResponse_frame (now : Z) (this other : ref) (_callback : value)
    (err res unpacked : value) (σ : gmap ref t) :
  this <> other ->
  snd (time_onResponse now this _callback err res unpacked σ) !! other = σ !! other.
Proof.
  intros Hne. unfold time_onResponse. destruct (truthy err); [done|].
  destruct (_ ≫= _) as [[time|e] tr]; [|done].
  destruct (negb (truthy time)); [done|]. cbn.
  by apply lookup_alter_ne.
Qed.

(** The only change the response makes to the client that called [time] is
    to its [serverTimeOffset]. *)
Lemma time_onResponse_this (now : Z) (this : ref) (_callback : value)
    (err res unpacked : value) (σ : gmap ref t) (c : t) :
  σ !! this = Some c ->
  exists o, snd (time_onResponse now this _callback err res unpacked σ) !! this
            = Some (set_serverTimeOffset o c).
Proof.
  intros Hc. unfold time_onResponse.
  assert (Hsame : σ !! this = Some (set_serverTimeOffset (serverTimeOffset c) c)).
  { rewrite Hc. by destruct c. }
  destruct (truthy err); [eauto|].
  destruct (_ ≫= _) as [[time|e] tr]; [|eauto].
  destruct (negb (truthy time)); [eauto|]. cbn.
  eexists. rewrite lookup_alter_eq, Hc. reflexivity.
Qed.

Lemma constructor_fields (this : ref) (options : value) (c : t) (tr : list event) :
  constructor this options = (Return c, tr) ->
  _currentFallback c = None /\ serverTimeOffset c = None /\
  channels c = Channels.new this.
Proof.
  unfold constructor. destruct (negb (truthy options)); [done|].
  destruct (Defaults_normaliseOptions _) as [n|e]; cbn; [|done].
  destruct (process_key n) as [n'|e]; cbn; [|done].
  destruct (check_clientId n') as [[]|e]; cbn; [|done].
  destruct (Http_new n') as [h|e]; cbn; [|done].
  destruct (Auth_new this n') as [a|e]; cbn; [|done].
  destruct (Push_new this) as [pu|e]; cbn; [|done].
  by intros [= <- _].
Qed.

Lemma new_BaseClient_fields (σ0 σ : gmap ref t) (options : value) (r : ref)
    (tr : list event) :
  new_BaseClient σ0 options = (Return r, σ, tr) ->
  (r ∉ dom σ0) /\
  exists c, σ = <[r := c]> σ0 /\ _currentFallback c = None /\ serverTimeOffset c = None.
Proof.
  unfold new_BaseClient.
  destruct (constructor (fresh (dom σ0)) options) as [[c|e] tr'] eqn:Hc; [|done].
  intros [= <- <- <-]. split; [apply is_fresh|].
  exists c. destruct (constructor_fields _ _ _ _ Hc) as (? & ? & _). done.
Qed.

Lemma time_onResponse_this_absent (now : Z) (this : ref) (_callback : value)
    (err res unpacked : value) (σ : gmap ref t) :
  σ !! this = None ->
  snd (time_onResponse now this _callback err res unpacked σ) !! this = None.
Proof.
  intros Hc. unfold time_onResponse. destruct (truthy err); [done|].
  destruct (_ ≫= _) as [[time|e] tr]; [|done].
  destruct (negb (truthy time)); [done|]. cbn.
  by rewrite lookup_alter_eq, Hc.
Qed.

(** C7: a client's [serverTimeOffset] is [null] when [new BaseClient]
    returns it, and the state is the instance's own: in every store of
    clients, whatever the offsets the clients hold, the response to a
    [time()] call of one client leaves every other client exactly as it is,
    and changes of the calling client nothing but its [serverTimeOffset]. *)
Theorem serverTimeOffset_per_instance (σ0 σ1 σ : gmap ref t) (options : value)
    (this other : ref) (tr : list event) (now : Z)
    (_callback err res unpacked : value)
    (Hnew : new_BaseClient σ0 options = (Return other, σ1, tr))
    (Hne : this <> other) :
  serverTimeOffset <$> σ1 !! other = Some None /\
  snd (time_onResponse now this _callback err res unpacked σ) !! other = σ !! other /\
  match σ !! this with
  | Some c =>
      exists o, snd (time_onResponse now this _callback err res unpacked σ) !! this
                = Some (set_serverTimeOffset o c)
  | None => snd (time_onResponse now this _callback err res unpacked σ) !! this = None
  end.
Proof.
  destruct (new_BaseClient_fields _ _ _ _ _ Hnew) as (_ & c & -> & _ & Hoff).
  split; [|split].
  - rewrite lookup_insert_eq. cbn. by rewrite Hoff.
  - by apply time_onResponse_frame.
  - destruct (σ !! this) as [c'|] eqn:Hthis.
    + by apply time_onResponse_this.
    + by apply time_onResponse_this_absent.
Qed.

End TimeFacts.

(** *** The operations: what the caller gets back *)

Section ContractSettled.
Import JS BaseClient.
Context {E : Environment}.


End ContractSettled.

Section TimeExamples.
Import JS BaseClient.

Lemma serverTimeOffset_per_instance_witness :
  new_BaseClient (E:=test_env) (<[0%nat := test_client]> ∅) (VStr "app.id:secret")
    = (Return 1%nat, test_store, [ENew "Http"; ENew "Auth"; ENew "Channels"; ENew "Push"]) /\
  0%nat <> 1%nat /\
  serverTimeOffset (E:=test_env) <$> test_store !! 1%nat = Some None /\
  snd (time_onResponse (E:=test_env) 1699999999000 0 (VFun (FUser 1)) VNull
         (VArr [VNum 1700000000000]) (VBool true) test_store_synced) !! 1%nat
    = test_store_synced !! 1%nat /\
  match test_store_synced !! 0%nat with
  | Some c =>
      exists o,
        snd (time_onResponse (E:=test_env) 1699999999000 0 (VFun (FUser 1)) VNull
               (VArr [VNum 1700000000000]) (VBool true) test_store_synced) !! 0%nat
        = Some (set_serverTimeOffset o c)
  | None =>
      snd (time_onResponse (E:=test_env) 1699999999000 0 (VFun (FUser 1)) VNull
             (VArr [VNum 1700000000000]) (VBool true) test_store_synced) !! 0%nat
      = None
  end.
Proof.
  assert (Hnew : new_BaseClient (E:=test_env) (<[0%nat := test_client]> ∅)
                   (VStr "app.id:secret")
                 = (Return 1%nat, test_store,
                    [ENew "Http"; ENew "Auth"; ENew "Channels"; ENew "Push"]))
    by (vm_compute; reflexivity).
  assert (Hne : 0%nat <> 1%nat) by lia.
  split; [exact Hnew|]. split; [exact Hne|].
  exact (serverTimeOffset_per_instance (E:=test_env) _ _ test_store_synced _ 0%nat 1%nat _
           1699999999000 (VFun (FUser 1)) VNull (VArr [VNum 1700000000000]) (VBool true)
           Hnew Hne).
Defined.

(** The other client keeps the offset it had learnt, while the calling
    client gets its own. *)
Example time_onResponse_keeps_other_offset :
  let σ := snd (time_onResponse (E:=test_env) 1699999999000 0 (VFun (FUser 1)) VNull
                  (VArr [VNum 1700000000000]) (VBool true) test_store_synced) in
  serverTimeOffset (E:=test_env) <$> test_store_synced !! 1%nat = Some (Some (Finite 5)) /\
  serverTimeOffset (E:=test_env) <$> σ !! 1%nat = Some (Some (Finite 5)) /\
  serverTimeOffset (E:=test_env) <$> σ !! 0%nat = Some (Some (Finite 1000)).
Proof. vm_compute. repeat split. Qed.

Lemma time_onResponse_reports_once_witness :
  (truthy VNull = true \/
   bind (if negb (truthy (VBool true))
         then JSON_parse (Environment:=test_env) (VArr [VNum 1700000000000])
         else Return (VArr [VNum 1700000000000])) get_index0
     = Return (VNum 1700000000000)) /\
  result (fst (time_onResponse (E:=test_env) 1699999999000 0 (VFun (FUser 1)) VNull
                 (VArr [VNum 1700000000000]) (VBool true) test_store)) = Return tt /\
  invocations (trace (fst (time_onResponse (E:=test_env) 1699999999000 0 (VFun (FUser 1))
                             VNull (VArr [VNum 1700000000000]) (VBool true) test_store)))
  = [ (FUser 1, [VNull; VNum 1700000000000]) ].
Proof.
  assert (Husable : truthy VNull = true \/
            bind (if negb (truthy (VBool true))
                  then JSON_parse (Environment:=test_env) (VArr [VNum 1700000000000])
                  else Return (VArr [VNum 1700000000000])) get_index0
              = Return (VNum 1700000000000))
    by (right; reflexivity).
  split; [exact Husable|].
  exact (time_onResponse_reports_once (E:=test_env) 1699999999000 0 (FUser 1) VNull
           (VArr [VNum 1700000000000]) (VBool true) (VNum 1700000000000) test_store
           Husable).
Defined.

(** Not every outcome of the HTTP call is reported as the claim lists them:
    a response without body makes the response callback throw before it
    invokes the callback of [time], and so does a body that is not JSON; and
    a first element that is present but falsy, such as [0], is reported as
    the internal error, not as the time. *)
Lemma time_onResponse_not_always_reported :
  let no_body := time_onResponse (E:=test_env) 1699999999000 0 (VFun (FUser 1))
                   VNull VUndefined (VBool true) test_store in
  let not_json := time_onResponse (E:=test_env) 1699999999000 0 (VFun (FUser 1))
                    VNull (VStr "<html>") VUndefined test_store in
  let zero := time_onResponse (E:=test_env) 1699999999000 0 (VFun (FUser 1))
                VNull (VArr [VNum 0]) (VBool true) test_store in
  result (fst no_body)
    = Throw (TypeError "Cannot read properties of undefined (reading '0')") /\
  invocations (trace (fst no_body)) = [] /\
  result (fst not_json) = Throw (SyntaxError "Unexpected token in JSON") /\
  invocations (trace (fst not_json)) = [] /\
  get_index0 (VArr [VNum 0]) = Return (VNum 0) /\
  invocations (trace (fst zero)) = [(FUser 1, [unexpected_result])].
Proof. vm_compute. repeat split. Qed.

(** The client that called [time] gets the offset, and its callback the
    time. *)
Example time_onResponse_sets_offset :
  let r := time_onResponse (E:=test_env) 1699999999000 0 (VFun (FUser 1)) VNull
             (VArr [VNum 1700000000000]) (VBool true) test_store in
  fst r = (Return tt, [ECall (FUser 1) [VNull; VNum 1700000000000]]) /\
  serverTimeOffset (E:=test_env) <$> snd r !! 0%nat = Some (Some (Finite 1000)).
Proof. vm_compute. split; reflexivity. Qed.

(** A first element that is falsy, such as [0], is reported as the internal
    error. *)
Example time_onResponse_zero :
  fst (time_onResponse (E:=test_env) 1699999999000 0 (VFun (FUser 1)) VNull
         (VArr [VNum 0]) (VBool true) test_store)
  = (Return tt,
     [ECall (FUser 1)
        [VError (ErrorInfo "Internal error (unexpected result type from GET /time)"
                   50000 500)]]).
Proof. vm_compute. reflexivity. Qed.

End TimeExamples.

(** *** The current fallback host *)

Section FallbackFacts.
Import JS BaseClient HttpFallback.
Context {E : Environment}.

Lemma do_fresh_record (cfg : config) (respond : string -> attempt) (now : Z)
    (fb : fallback) :
  (now < validUntil fb)%Z ->
  head (fst (fst (do cfg respond now (Some fb)))) = Some (host fb) /\
  (snd (do cfg respond now (Some fb)) = Some fb \/ respond (host fb) = Retryable).
Proof.
  intros Hlt. unfold do. apply Z.ltb_lt in Hlt. rewrite Hlt.
  destruct (respond (host fb)); [auto | | auto].
  destruct (try_hosts _ _ _ _) as [[tried r] current]. auto.
Qed.

Lemma do_record_kept (cfg : config) (respond : string -> attempt) (now : Z)
    (fb : fallback) :
  snd (do cfg respond now (Some fb)) = Some fb \/
  respond (host fb) = Retryable \/ (validUntil fb <= now)%Z.
Proof.
  destruct (Z.ltb_spec now (validUntil fb)) as [Hlt|Hge]; [|auto].
  destruct (do_fresh_record cfg respond now fb Hlt) as [_ [?|?]]; auto.
Qed.

(** C3: a client is constructed with no current fallback; the record holds
    at most one host with its [validUntil]; a request made while the record
    is unexpired tries the recorded host first; and after a request the
    record is still the same unless the recorded host failed or the
    cool-down had expired. *)
Theorem current_fallback_sticky (this : ref) (options : value) (c : t)
    (tr : list event) (cfg : config) (respond : string -> attempt) (now : Z)
    (fb : fallback)
    (Hnew : constructor this options = (Return c, tr))
    (Hunexpired : (now < validUntil fb)%Z) :
  _currentFallback c = None /\
  head (fst (fst (do cfg respond now (Some fb)))) = Some (host fb) /\
  (snd (do cfg respond now (Some fb)) = Some fb \/ respond (host fb) = Retryable) /\
  (forall now' : Z,
     snd (do cfg respond now' (Some fb)) = Some fb \/
     respond (host fb) = Retryable \/ (validUntil fb <= now')%Z).
Proof.
  destruct (constructor_fields _ _ _ _ Hnew) as (Hfb & _ & _).
  destruct (do_fresh_record cfg respond now fb Hunexpired) as [Hhead Hkept].
  repeat split; try done. intros now'. apply do_record_kept.
Qed.

End FallbackFacts.

Section FallbackExamples.
Import JS BaseClient HttpFallback.

Lemma current_fallback_sticky_witness :
  constructor (E:=test_env) 0 (VStr "app.id:secret")
    = (Return test_client, [ENew "Http"; ENew "Auth"; ENew "Channels"; ENew "Push"]) /\
  (150 < 600100)%Z /\
  _currentFallback test_client = None /\
  head (fst (fst (do test_config only_b_responds 150
                    (Some {| host := "b.ably-realtime.com"; validUntil := 600100 |}))))
    = Some "b.ably-realtime.com" /\
  (snd (do test_config only_b_responds 150
          (Some {| host := "b.ably-realtime.com"; validUntil := 600100 |}))
     = Some {| host := "b.ably-realtime.com"; validUntil := 600100 |} \/
   only_b_responds "b.ably-realtime.com" = Retryable) /\
  (forall now' : Z,
     snd (do test_config only_b_responds now'
            (Some {| host := "b.ably-realtime.com"; validUntil := 600100 |}))
       = Some {| host := "b.ably-realtime.com"; validUntil := 600100 |} \/
     only_b_responds "b.ably-realtime.com" = Retryable \/ (600100 <= now')%Z).
Proof.
  assert (Hnew : constructor (E:=test_env) 0 (VStr "app.id:secret")
                 = (Return test_client,
                    [ENew "Http"; ENew "Auth"; ENew "Channels"; ENew "Push"]))
    by reflexivity.
  assert (Hlt : (150 < 600100)%Z) by lia.
  split; [exact Hnew|]. split; [exact Hlt|].
  exact (current_fallback_sticky (E:=test_env) 0 _ _ _ test_config only_b_responds 150
           {| host := "b.ably-realtime.com"; validUntil := 600100 |} Hnew Hlt).
Defined.

(** The scenario of the specification: the primary host and the first
    fallback fail, the request succeeds against the third host, and a
    request within the cool-down window goes to the third host first. *)
Example fallback_scenario :
  do test_config only_b_responds 100 None
    = (["rest.ably.io"; "a.ably-realtime.com"; "b.ably-realtime.com"], Succeeded,
       Some {| host := "b.ably-realtime.com"; validUntil := 600100 |}) /\
  do test_config only_b_responds 150
     (Some {| host := "b.ably-realtime.com"; validUntil := 600100 |})
    = (["b.ably-realtime.com"], Succeeded,
       Some {| host := "b.ably-realtime.com"; validUntil := 600100 |}) /\
  fst (fst (do test_config (fun _ => Succeeded) 700000
              (Some {| host := "b.ably-realtime.com"; validUntil := 600100 |})))
    = ["rest.ably.io"].
Proof. vm_compute. repeat split. Qed.

End FallbackExamples.

(** ** Part III: further properties of the code *)

(** *** PushChannelSubscription: properties, printing, response bodies *)

Section PushChannelSubscriptionMore.
Import JS PushChannelSubscription.

Lemma has_prop_false (o : props) (k : string) :
  has_prop o k = false <-> k ∉ map fst o.
Proof.
  induction o as [|[k0 v0] o IH]; cbn.
  - split; [intros _; apply not_elem_of_nil | done].
  - rewrite orb_false_iff, IH, not_elem_of_cons, String.eqb_neq.
    split; intros [Hne Hnotin]; split; congruence.
Qed.

Lemma set_prop_new (o : props) (k : string) (v : value) :
  k ∉ map fst o -> set_prop o k v = (o ++ [(k, v)])%list.
Proof.
  induction o as [|[k0 v0] o IH]; cbn; [done|].
  rewrite not_elem_of_cons. intros [Hne Hnotin].
  destruct (String.eqb_spec k0 k); [congruence|]. by rewrite IH.
Qed.

Lemma Object_assign_distinct (target source : props) :
  NoDup (map fst (target ++ source)%list) ->
  Object_assign target source = (target ++ source)%list.
Proof.
  unfold Object_assign. revert target.
  induction source as [|[k v] source IH]; intros target Hnd; cbn.
  - by rewrite app_nil_r.
  - rewrite set_prop_new.
    + rewrite IH; [by rewrite <- app_assoc|].
      by rewrite <- app_assoc.
    + rewrite map_app in Hnd. cbn in Hnd.
      apply NoDup_app in Hnd as (_ & Hdisj & _).
      intros Hin. apply (Hdisj k Hin). left.
Qed.

(** X15: [fromValues] keeps every property of a record whose keys do not
    include [__proto__], in the record's order: the three declared fields
    and any other property alike. *)
Theorem fromValues_keeps_properties (values : props)
    (Hkeys : NoDup (map fst values))
    (Hproto : "__proto__" ∉ map fst values) :
  own (fromValues values) = values /\
  channel (fromValues values) = get_prop values "channel" /\
  deviceId (fromValues values) = get_prop values "deviceId" /\
  clientId (fromValues values) = get_prop values "clientId".
Proof.
  assert (Hown : own (fromValues values) = values).
  { unfold fromValues. cbn [own new]. by rewrite Object_assign_distinct. }
  unfold channel, deviceId, clientId. by rewrite Hown.
Qed.

Lemma fromValues_toJSON_fields (s : t) :
  channel (fromValues (toJSON s)) = channel s /\
  deviceId (fromValues (toJSON s)) = deviceId s /\
  clientId (fromValues (toJSON s)) = clientId s.
Proof.
  destruct s as [o]. unfold channel, deviceId, clientId.
  rewrite fromValues_toJSON_own. cbn [own get_prop]. repeat split.
Qed.

(** X16: [toString] reads the three declared fields only: a subscription and the
    one rebuilt from its JSON form print the same, whatever other properties
    the first one has. *)
Theorem toString_of_fromValues_toJSON (ToString : value -> string) (s : t) :
  toString ToString (fromValues (toJSON s)) = toString ToString s.
Proof.
  destruct (fromValues_toJSON_fields s) as (Hc & Hd & Hi).
  unfold toString. by rewrite Hc, Hd, Hi.
Qed.

(** X17: [toString] leaves out a field that is absent, [undefined], [null] or the
    empty string: two subscriptions whose fields are equal or both falsy
    print the same. *)
Theorem toString_omits_falsy_fields (ToString : value -> string) (s1 s2 : t)
    (Hchannel : channel s1 = channel s2 \/
                truthy (channel s1) = false /\ truthy (channel s2) = false)
    (HdeviceId : deviceId s1 = deviceId s2 \/
                 truthy (deviceId s1) = false /\ truthy (deviceId s2) = false)
    (HclientId : clientId s1 = clientId s2 \/
                 truthy (clientId s1) = false /\ truthy (clientId s2) = false) :
  toString ToString s1 = toString ToString s2.
Proof.
  unfold toString.
  destruct Hchannel as [->|[-> ->]], HdeviceId as [->|[-> ->]],
    HclientId as [->|[-> ->]]; reflexivity.
Qed.

(** X18: without a format the body is used as it is, and a body that is the
    array of the JSON forms of subscriptions is read back as one
    subscription per element, in order, each with the JSON form it came
    from. *)
Theorem fromResponseBody_of_toJSON (decodeBody : body -> value -> body)
    (l : list t) (format : value)
    (Hformat : truthy format = false) :
  fromResponseBody decodeBody (BArray (toJSON <$> l)) format
  = PArray ((fun s => Some (fromValues (toJSON s))) <$> l) /\
  (fun r : option t => toJSON <$> r) <$> ((fun s => Some (fromValues (toJSON s))) <$> l)
  = (fun s => Some (toJSON s)) <$> l /\
  (forall s : t, fromResponseBody decodeBody (BRecord (toJSON s)) format
                 = POne (fromValues (toJSON s))).
Proof.
  unfold fromResponseBody. rewrite Hformat. split; [|split].
  - rewrite fromValuesArray_fmap. by rewrite <- list_fmap_compose.
  - rewrite <- list_fmap_compose. apply list_fmap_ext. by intros i s _.
  - done.
Qed.

End PushChannelSubscriptionMore.

Section PushChannelSubscriptionMoreExamples.
Import JS PushChannelSubscription.

Lemma fromValues_keeps_properties_witness :
  NoDup (map fst [("channel", VStr "news"); ("id", VNum 7)]) /\
  ("__proto__" ∉ map fst [("channel", VStr "news"); ("id", VNum 7)]) /\
  own (fromValues [("channel", VStr "news"); ("id", VNum 7)])
    = [("channel", VStr "news"); ("id", VNum 7)] /\
  channel (fromValues [("channel", VStr "news"); ("id", VNum 7)])
    = get_prop [("channel", VStr "news"); ("id", VNum 7)] "channel" /\
  deviceId (fromValues [("channel", VStr "news"); ("id", VNum 7)])
    = get_prop [("channel", VStr "news"); ("id", VNum 7)] "deviceId" /\
  clientId (fromValues [("channel", VStr "news"); ("id", VNum 7)])
    = get_prop [("channel", VStr "news"); ("id", VNum 7)] "clientId".
Proof.
  assert (Hkeys : NoDup (map fst [("channel", VStr "news"); ("id", VNum 7)])).
  { cbn. apply NoDup_cons; split; [|apply NoDup_singleton].
    apply not_elem_of_cons; split; [discriminate | apply not_elem_of_nil]. }
  assert (Hproto : "__proto__" ∉ map fst [("channel", VStr "news"); ("id", VNum 7)]).
  { cbn. apply not_elem_of_cons; split; [discriminate|].
    apply not_elem_of_cons; split; [discriminate | apply not_elem_of_nil]. }
  split; [exact Hkeys|]. split; [exact Hproto|].
  exact (fromValues_keeps_properties _ Hkeys Hproto).
Defined.

Lemma toString_omits_falsy_fields_witness :
  let s1 := Build [("channel", VStr ""); ("deviceId", VStr "d1")] in
  let s2 := Build [("deviceId", VStr "d1"); ("clientId", VNull)] in
  (channel s1 = channel s2 \/
   truthy (channel s1) = false /\ truthy (channel s2) = false) /\
  (deviceId s1 = deviceId s2 \/
   truthy (deviceId s1) = false /\ truthy (deviceId s2) = false) /\
  (clientId s1 = clientId s2 \/
   truthy (clientId s1) = false /\ truthy (clientId s2) = false) /\
  toString (fun _ => "[object Object]") s1 = toString (fun _ => "[object Object]") s2.
Proof.
  cbn zeta.
  assert (H1 : channel (Build [("channel", VStr ""); ("deviceId", VStr "d1")])
               = channel (Build [("deviceId", VStr "d1"); ("clientId", VNull)]) \/
               truthy (channel (Build [("channel", VStr ""); ("deviceId", VStr "d1")])) = false /\
               truthy (channel (Build [("deviceId", VStr "d1"); ("clientId", VNull)])) = false)
    by (right; split; reflexivity).
  assert (H2 : deviceId (Build [("channel", VStr ""); ("deviceId", VStr "d1")])
               = deviceId (Build [("deviceId", VStr "d1"); ("clientId", VNull)]) \/
               truthy (deviceId (Build [("channel", VStr ""); ("deviceId", VStr "d1")])) = false /\
               truthy (deviceId (Build [("deviceId", VStr "d1"); ("clientId", VNull)])) = false)
    by (left; reflexivity).
  assert (H3 : clientId (Build [("channel", VStr ""); ("deviceId", VStr "d1")])
               = clientId (Build [("deviceId", VStr "d1"); ("clientId", VNull)]) \/
               truthy (clientId (Build [("channel", VStr ""); ("deviceId", VStr "d1")])) = false /\
               truthy (clientId (Build [("deviceId", VStr "d1"); ("clientId", VNull)])) = false)
    by (right; split; reflexivity).
  repeat (split; [assumption|]).
  exact (toString_omits_falsy_fields _ _ _ H1 H2 H3).
Defined.

Lemma fromResponseBody_of_toJSON_witness :
  let l := [Build [("channel", VStr "news"); ("extra", VNum 1)]; new] in
  truthy VUndefined = false /\
  fromResponseBody (fun b _ => b) (BArray (toJSON <$> l)) VUndefined
  = PArray ((fun s => Some (fromValues (toJSON s))) <$> l) /\
  (fun r : option t => toJSON <$> r) <$> ((fun s => Some (fromValues (toJSON s))) <$> l)
  = (fun s => Some (toJSON s)) <$> l /\
  (forall s : t, fromResponseBody (fun b _ => b) (BRecord (toJSON s)) VUndefined
                 = POne (fromValues (toJSON s))).
Proof.
  cbn zeta. split; [reflexivity|].
  exact (fromResponseBody_of_toJSON (fun b _ => b)
           [Build [("channel", VStr "news"); ("extra", VNum 1)]; new] VUndefined eq_refl).
Defined.

(** How a subscription prints. *)
Example toString_example :
  toString (fun _ => "[object Object]")
    (fromValues [("channel", VStr "news"); ("clientId", VStr "c1")])
  = "[PushChannelSubscription; channel=news; clientId=c1]" /\
  toString (fun _ => "[object Object]") new = "[PushChannelSubscription]".
Proof. split; reflexivity. Qed.

End PushChannelSubscriptionMoreExamples.

(** *** Channels: consistency, release, other channels *)

Section ChannelsMore.
Import JS Channels.
Context {C : ChannelClass}.

Lemma get_dom (this : t) (σ : gmap ref Channel) name o :
  dom σ ⊆ dom (snd (get this σ name o)).
Proof.
  unfold get. destruct (all this !! String_ name) as [c|].
  - destruct o; cbn; [|done]. by rewrite dom_alter.
  - cbn. apply dom_insert_subseteq.
Qed.

Lemma get_keeps_consistent (this : t) (σ : gmap ref Channel) name o :
  consistent this σ ->
  consistent (snd (fst (get this σ name o))) (snd (get this σ name o)).
Proof.
  intros [Hdom Hinj]. unfold consistent.
  pose proof (get_dom this σ name o) as Hsub.
  destruct (all this !! String_ name) as [c|] eqn:Hl.
  - destruct (get_existing this σ name o c Hl) as [_ Hthis]. rewrite Hthis.
    split; [|exact Hinj]. intros n c' Hn. apply Hsub. by eapply Hdom.
  - destruct (get_absent this σ name o Hl) as (Hfresh & Hall & Hnew & _).
    rewrite Hall. split.
    + intros n c'. rewrite lookup_insert. case_decide as Hn.
      * intros [= <-]. apply elem_of_dom. by eexists.
      * intros Hc'. apply Hsub. by eapply Hdom.
    + intros n n' c'. rewrite !lookup_insert.
      case_decide as Hn; case_decide as Hn'.
      * congruence.
      * intros [= <-] Hc'. exfalso. apply Hfresh. by eapply Hdom.
      * intros Hc' [= <-]. exfalso. apply Hfresh. by eapply Hdom.
      * apply Hinj.
Qed.

Lemma release_keeps_consistent (this : t) (σ : gmap ref Channel) name :
  consistent this σ -> consistent (release this name) σ.
Proof.
  intros [Hdom Hinj]. unfold release. split; cbn.
  - intros n c [_ Hc]%lookup_delete_Some. by eapply Hdom.
  - intros n n' c [_ Hc]%lookup_delete_Some [_ Hc']%lookup_delete_Some.
    by eapply Hinj.
Qed.

(** X1: [get] and [release] keep a [Channels] object consistent with the store:
    every name still leads to a channel that exists, and no channel is
    stored under two names.  The object a client is constructed with is
    consistent with every store. *)
Theorem Channels_consistency_kept (this : t) (σ : gmap ref Channel)
    (name : primitive) (o : option ChannelOptions)
    (Hconsistent : consistent this σ) :
  consistent (snd (fst (get this σ name o))) (snd (get this σ name o)) /\
  consistent (release this name) σ /\
  consistent (new (client this)) σ.
Proof.
  split; [by apply get_keeps_consistent|]. split; [by apply release_keeps_consistent|].
  split; cbn.
  - intros n c Hn. by rewrite lookup_empty in Hn.
  - intros n n' c Hn. by rewrite lookup_empty in Hn.
Qed.

(** X2: two names with different string forms get two different channels. *)
Theorem Channels_get_distinct_names (this : t) (σ : gmap ref Channel)
    (name name' : primitive) (o o' : option ChannelOptions)
    (Hconsistent : consistent this σ)
    (Hnames : String_ name' <> String_ name) :
  let '(c1, this1, σ1) := get this σ name o in
  let '(c2, this2, σ2) := get this1 σ1 name' o' in
  c2 <> c1 /\
  all this2 !! String_ name = Some c1 /\
  all this2 !! String_ name' = Some c2.
Proof.
  pose proof (get_stored this σ name o) as Hst1.
  pose proof (get_keeps_consistent this σ name o Hconsistent) as Hc1.
  destruct (get this σ name o) as [[c1 this1] σ1]. cbn [fst snd] in *.
  pose proof (get_stored this1 σ1 name' o') as Hst2.
  pose proof (get_other_names this1 σ1 name' o' (String_ name)) as Hother.
  pose proof (get_keeps_consistent this1 σ1 name' o' Hc1) as [_ Hinj].
  destruct (get this1 σ1 name' o') as [[c2 this2] σ2]. cbn [fst snd] in *.
  assert (Hl1 : all this2 !! String_ name = Some c1).
  { rewrite Hother; [done | congruence]. }
  split; [|by split].
  intros ->. apply Hnames. by eapply Hinj.
Qed.

(** X3: after [release(name)], [get(name)] does not return the released channel:
    it creates a channel that was not in the store. *)
Theorem Channels_release_then_get (this : t) (σ : gmap ref Channel)
    (name : primitive) (o : option ChannelOptions) (c : ref)
    (Hconsistent : consistent this σ)
    (Hname : all this !! String_ name = Some c) :
  let '(c', this', σ') := get (release this name) σ name o in
  c' <> c /\ (c' ∉ dom σ) /\
  all this' !! String_ name = Some c' /\
  σ' !! c' = Some (Channel_new (client this) (String_ name) o) /\
  σ' !! c = σ !! c.
Proof.
  assert (Hrel : all (release this name) !! String_ name = None)
    by (unfold release; cbn; apply lookup_delete_eq).
  pose proof (get_absent (release this name) σ name o Hrel) as (Hfresh & Hall & Hnew & Hold).
  pose proof (get_stored (release this name) σ name o) as Hst.
  destruct Hconsistent as [Hdom _]. pose proof (Hdom _ _ Hname) as Hc.
  destruct (get (release this name) σ name o) as [[c' this'] σ']. cbn [fst snd] in *.
  repeat split; [congruence | done | done | done | by apply Hold].
Qed.

(** X4: [get] changes no channel of the store but the one it returns (to which
    it passes the options it is given). *)
Theorem Channels_get_other_channels (this : t) (σ : gmap ref Channel)
    (name : primitive) (o : option ChannelOptions) (r : ref)
    (Hother : r <> fst (fst (get this σ name o))) :
  snd (get this σ name o) !! r = σ !! r /\
  snd (get this σ name None) !! r = σ !! r.
Proof.
  revert Hother. unfold get. destruct (all this !! String_ name) as [c|].
  - destruct o; cbn; intros Hne; split; try done. by rewrite lookup_alter_ne.
  - cbn. intros Hne. by rewrite !lookup_insert_ne.
Qed.

(** X5: [release] forgets the name it is given and no other; releasing a name
    that holds no channel changes nothing. *)
Theorem Channels_release_only_that_name (this : t) (name : primitive) (other : string)
    (Hother : other <> String_ name) :
  all (release this name) !! String_ name = None /\
  all (release this name) !! other = all this !! other /\
  match all this !! String_ name with
  | Some _ => release (release this name) name = release this name
  | None => release this name = this
  end.
Proof.
  unfold release. cbn. split; [apply lookup_delete_eq|].
  split; [by apply lookup_delete_ne|].
  destruct (all this !! String_ name) eqn:Hl.
  - f_equal. apply delete_id, lookup_delete_eq.
  - destruct this as [cl al]. cbn in *. f_equal. by apply delete_id.
Qed.

End ChannelsMore.

Section ChannelsMoreExamples.
Import JS Channels.

(** A [Channels] object with one channel, as a first [get] of the name [a]
    leaves it. *)
Lemma example_consistent :
  consistent (C:=example_class) (Build 0 {["a" := 5%nat]}) {[5%nat := ("a", None)]}.
Proof.
  split; cbn.
  - intros n c [-> <-]%lookup_singleton_Some. by apply elem_of_dom; eexists.
  - by intros n n' c [-> <-]%lookup_singleton_Some [-> _]%lookup_singleton_Some.
Qed.

Lemma Channels_consistency_kept_witness :
  consistent (C:=example_class) (Build 0 {["a" := 5%nat]}) {[5%nat := ("a", None)]} /\
  consistent (C:=example_class)
    (snd (fst (get (C:=example_class) (Build 0 {["a" := 5%nat]}) {[5%nat := ("a", None)]}
                 (PStr "b") None)))
    (snd (get (C:=example_class) (Build 0 {["a" := 5%nat]}) {[5%nat := ("a", None)]}
            (PStr "b") None)) /\
  consistent (C:=example_class) (release (Build 0 {["a" := 5%nat]}) (PStr "b"))
    {[5%nat := ("a", None)]} /\
  consistent (C:=example_class) (new 0) {[5%nat := ("a", None)]}.
Proof.
  split; [exact example_consistent|].
  exact (Channels_consistency_kept (C:=example_class) _ _ (PStr "b") None
           example_consistent).
Defined.

Lemma Channels_get_distinct_names_witness :
  consistent (C:=example_class) (Build 0 {["a" := 5%nat]}) {[5%nat := ("a", None)]} /\
  String_ (PNum 2) <> String_ (PStr "a") /\
  let '(c1, this1, σ1) :=
    get (C:=example_class) (Build 0 {["a" := 5%nat]}) {[5%nat := ("a", None)]}
      (PStr "a") None in
  let '(c2, this2, σ2) := get (C:=example_class) this1 σ1 (PNum 2) None in
  c2 <> c1 /\
  all this2 !! String_ (PStr "a") = Some c1 /\
  all this2 !! String_ (PNum 2) = Some c2.
Proof.
  assert (Hnames : String_ (PNum 2) <> String_ (PStr "a")) by discriminate.
  split; [exact example_consistent|]. split; [exact Hnames|].
  exact (Channels_get_distinct_names (C:=example_class) _ _ (PStr "a") (PNum 2) None None
           example_consistent Hnames).
Defined.

Lemma Channels_release_then_get_witness :
  consistent (C:=example_class) (Build 0 {["a" := 5%nat]}) {[5%nat := ("a", None)]} /\
  all (Build 0 {["a" := 5%nat]}) !! String_ (PStr "a") = Some 5%nat /\
  let '(c', this', σ') :=
    get (C:=example_class) (release (Build 0 {["a" := 5%nat]}) (PStr "a"))
      {[5%nat := ("a", None)]} (PStr "a") (Some 3%nat) in
  c' <> 5%nat /\ (c' ∉ dom ({[5%nat := ("a", None)]} : gmap ref (string * option nat))) /\
  all this' !! String_ (PStr "a") = Some c' /\
  σ' !! c' = Some ("a", Some 3%nat) /\
  σ' !! 5%nat = ({[5%nat := ("a", None)]} : gmap ref (string * option nat)) !! 5%nat.
Proof.
  assert (Hname : all (Build 0 {["a" := 5%nat]}) !! String_ (PStr "a") = Some 5%nat)
    by reflexivity.
  split; [exact example_consistent|]. split; [exact Hname|].
  exact (Channels_release_then_get (C:=example_class) _ _ (PStr "a") (Some 3%nat) 5%nat
           example_consistent Hname).
Defined.

Lemma Channels_get_other_channels_witness :
  5%nat <> fst (fst (get (C:=example_class) (Build 0 {["a" := 5%nat]})
                       {[5%nat := ("a", None)]} (PStr "b") (Some 1%nat))) /\
  snd (get (C:=example_class) (Build 0 {["a" := 5%nat]}) {[5%nat := ("a", None)]}
         (PStr "b") (Some 1%nat)) !! 5%nat
    = ({[5%nat := ("a", None)]} : gmap ref (string * option nat)) !! 5%nat /\
  snd (get (C:=example_class) (Build 0 {["a" := 5%nat]}) {[5%nat := ("a", None)]}
         (PStr "b") None) !! 5%nat
    = ({[5%nat := ("a", None)]} : gmap ref (string * option nat)) !! 5%nat.
Proof.
  assert (Hother : 5%nat <> fst (fst (get (C:=example_class) (Build 0 {["a" := 5%nat]})
                                       {[5%nat := ("a", None)]} (PStr "b") (Some 1%nat))))
    by (vm_compute; lia).
  split; [exact Hother|].
  exact (Channels_get_other_channels (C:=example_class) _ _ (PStr "b") (Some 1%nat) 5%nat
           Hother).
Defined.

Lemma Channels_release_only_that_name_witness :
  "a" <> String_ (PStr "b") /\
  all (release (Build 0 {["a" := 5%nat]}) (PStr "b")) !! String_ (PStr "b") = None /\
  all (release (Build 0 {["a" := 5%nat]}) (PStr "b")) !! "a"
    = all (Build 0 {["a" := 5%nat]}) !! "a" /\
  match all (Build 0 {["a" := 5%nat]}) !! String_ (PStr "b") with
  | Some _ => release (release (Build 0 {["a" := 5%nat]}) (PStr "b")) (PStr "b")
              = release (Build 0 {["a" := 5%nat]}) (PStr "b")
  | None => release (Build 0 {["a" := 5%nat]}) (PStr "b") = Build 0 {["a" := 5%nat]}
  end.
Proof.
  assert (Hother : "a" <> String_ (PStr "b")) by discriminate.
  split; [exact Hother|].
  exact (Channels_release_only_that_name (Build 0 {["a" := 5%nat]}) (PStr "b") "a" Hother).
Defined.

(** With options, [get] of an existing channel passes them to that channel. *)
Example get_existing_sets_options :
  get (C:=example_class) (Build 0 {["a" := 5%nat]}) {[5%nat := ("a", None)]}
    (PStr "a") (Some 3%nat)
  = (5%nat, Build 0 {["a" := 5%nat]}, {[5%nat := ("a", Some 3%nat)]}).
Proof. vm_compute. reflexivity. Qed.

End ChannelsMoreExamples.

(** *** The constructor: what a constructed client holds *)

Section ConstructorMore.
Import JS BaseClient.
Context {E : Environment}.

(** A constructor that returns went through every step. *)
Lemma constructor_returns (this : ref) (options : value) (c : t) (tr : list event) :
  constructor this options = (Return c, tr) ->
  exists n n' h a pu,
    truthy options = true /\
    Defaults_normaliseOptions (Defaults_objectifyOptions options) = Return n /\
    process_key n = Return n' /\
    check_clientId n' = Return tt /\
    Http_new n' = Return h /\ Auth_new this n' = Return a /\ Push_new this = Return pu /\
    c = Build E n' None None h a (Channels.new this) pu /\
    tr = [ENew "Http"; ENew "Auth"; ENew "Channels"; ENew "Push"].
Proof.
  unfold constructor. destruct (truthy options) eqn:Ht; cbn; [|done].
  destruct (Defaults_normaliseOptions _) as [n|e] eqn:Hn; cbn; [|done].
  destruct (process_key n) as [n'|e] eqn:Hk; cbn; [|done].
  destruct (check_clientId n') as [[]|e] eqn:Hc; cbn; [|done].
  destruct (Http_new n') as [h|e] eqn:Hh; cbn; [|done].
  destruct (Auth_new this n') as [a|e] eqn:Ha; cbn; [|done].
  destruct (Push_new this) as [pu|e] eqn:Hp; cbn; [|done].
  intros [= <- <-]. by exists n, n', h, a, pu.
Qed.

Lemma check_clientId_returns (n : props) :
  check_clientId n = Return tt ->
  has_prop n "clientId" = false \/
  get_prop n "clientId" = VNull \/
  exists id, get_prop n "clientId" = VStr id /\ id <> "*".
Proof.
  unfold check_clientId. destruct (has_prop n "clientId"); [|auto].
  destruct (get_prop n "clientId") as [| | | |id| | | | |]; cbn; try done; [auto|].
  destruct (String.eqb_spec id "*"); [done|]. intros _. right. right. eauto.
Qed.

Lemma process_key_returns (n n' : props) :
  process_key n = Return n' ->
  (truthy (get_prop n "key") = false /\ n' = n) \/
  exists key name secret,
    get_prop n "key" = VStr key /\ key_match key = Some (name, secret) /\
    n' = set_prop (set_prop n "keyName" (VStr name)) "keySecret" (VStr secret).
Proof.
  unfold process_key. destruct (truthy (get_prop n "key")); [|intros [= <-]; auto].
  destruct (get_prop n "key") as [| | | |key| | | | |]; try done.
  destruct (key_match key) as [[name secret]|] eqn:Hm; [|done].
  intros [= <-]. right. by exists key, name, secret.
Qed.

(** X6: a client that was constructed has a valid [clientId]: none, [null], or
    a string other than the reserved ["*"]. *)
Theorem constructed_clientId_valid (this : ref) (options : value) (c : t)
    (tr : list event)
    (Hnew : constructor this options = (Return c, tr)) :
  has_prop (BaseClient.options c) "clientId" = false \/
  get_prop (BaseClient.options c) "clientId" = VNull \/
  exists id, get_prop (BaseClient.options c) "clientId" = VStr id /\ id <> "*".
Proof.
  destruct (constructor_returns _ _ _ _ Hnew)
    as (n & n' & h & a & pu & _ & _ & _ & Hc & _ & _ & _ & -> & _).
  by apply check_clientId_returns.
Qed.

(** X7: a client that was constructed has either no key, or a key of the form
    name:secret, and then its options carry the name as [keyName] and the
    secret as [keySecret]; every other option is as [normaliseOptions]
    returned it. *)
Theorem constructed_key_split (this : ref) (options : value) (c : t)
    (tr : list event) (n : props) (k : string)
    (Hnew : constructor this options = (Return c, tr))
    (Hnormal : Defaults_normaliseOptions (Defaults_objectifyOptions options) = Return n)
    (Hk : k <> "keyName" /\ k <> "keySecret") :
  get_prop (BaseClient.options c) k = get_prop n k /\
  (truthy (get_prop n "key") = false /\ BaseClient.options c = n \/
   exists name secret,
     get_prop n "key" = VStr (name ++ ":" ++ secret) /\
     name <> "" /\ secret <> "" /\
     all_chars name_char name = true /\ all_chars secret_char secret = true /\
     get_prop (BaseClient.options c) "keyName" = VStr name /\
     get_prop (BaseClient.options c) "keySecret" = VStr secret).
Proof.
  destruct Hk as [Hk1 Hk2].
  destruct (constructor_returns _ _ _ _ Hnew)
    as (n0 & n' & h & a & pu & _ & Hn0 & Hkey & _ & _ & _ & _ & -> & _).
  rewrite Hnormal in Hn0. injection Hn0 as <-. cbn [BaseClient.options].
  destruct (process_key_returns _ _ Hkey)
    as [[Hf ->] | (key & name & secret & Hget & Hm & ->)].
  - split; [done|]. by left.
  - split.
    + by rewrite !get_prop_set_prop_ne.
    + right. exists name, secret.
      apply key_match_spec in Hm as (-> & Hn1 & Hs1 & Hn2 & Hs2).
      repeat split; try done.
      * rewrite get_prop_set_prop_ne by done. apply get_prop_set_prop_eq.
      * apply get_prop_set_prop_eq.
Qed.

(** X8: [new BaseClient] gives the client a reference no client of the store
    has, leaves every client of the store as it is, and the new client
    starts with no channel, no fallback host and no server time offset; its
    [Channels] object refers back to it.  [Http], [Auth], [Channels] and
    [Push] are constructed in this order. *)
Theorem new_BaseClient_allocates (σ0 σ : gmap ref t) (options : value)
    (r r' : ref) (tr : list event)
    (Hnew : new_BaseClient σ0 options = (Return r, σ, tr))
    (Hold : r' ∈ dom σ0) :
  (r ∉ dom σ0) /\ σ !! r' = σ0 !! r' /\
  tr = [ENew "Http"; ENew "Auth"; ENew "Channels"; ENew "Push"] /\
  exists c, σ !! r = Some c /\
            channels c = Channels.Build r ∅ /\
            _currentFallback c = None /\ serverTimeOffset c = None.
Proof.
  revert Hnew. unfold new_BaseClient.
  destruct (constructor (fresh (dom σ0)) options) as [[c|e] tr'] eqn:Hc; [|done].
  intros [= <- <- <-].
  destruct (constructor_returns _ _ _ _ Hc)
    as (n & n' & h & a & pu & _ & _ & _ & _ & _ & _ & _ & -> & ->).
  pose proof (is_fresh (dom σ0)) as Hfresh.
  split; [done|]. split.
  - rewrite lookup_insert_ne; [done|]. by intros <-.
  - split; [done|]. eexists. by rewrite lookup_insert_eq.
Qed.

(** X9: when the constructor of [Auth] throws, [new BaseClient] throws the same
    error: [Http] was constructed, [Channels] and [Push] are not, and the
    store of clients is unchanged. *)
Theorem new_BaseClient_Auth_throws (σ : gmap ref t) (options : value)
    (n n' : props) (h : Http) (e : error)
    (Hoptions : truthy options = true)
    (Hnormal : Defaults_normaliseOptions (Defaults_objectifyOptions options) = Return n)
    (Hkey : process_key n = Return n')
    (HclientId : check_clientId n' = Return tt)
    (Hhttp : Http_new n' = Return h)
    (Hauth : Auth_new (fresh (dom σ)) n' = Throw e) :
  new_BaseClient σ options = (Throw e, σ, [ENew "Http"; ENew "Auth"]).
Proof.
  unfold new_BaseClient, constructor. rewrite Hoptions. cbn.
  rewrite Hnormal. cbn. rewrite Hkey. cbn. rewrite HclientId. cbn.
  rewrite Hhttp. cbn. by rewrite Hauth.
Qed.

(** X10: the key matcher accepts every key of the form name:secret and returns
    its two parts. *)
Theorem key_match_accepts (name secret : string)
    (Hname : name <> "" /\ all_chars name_char name = true)
    (Hsecret : secret <> "" /\ all_chars secret_char secret = true) :
  key_match (name ++ ":" ++ secret) = Some (name, secret).
Proof. apply key_match_spec. destruct Hname, Hsecret. done. Qed.

(** X11: a key the matcher accepts has exactly the form name:secret: one colon,
    a non-empty name without white space before it, a non-empty secret
    without full stop or white space after it; the matcher returns these two
    parts. *)
Theorem key_match_only_format (key name secret : string)
    (Hmatch : key_match key = Some (name, secret)) :
  key = name ++ ":" ++ secret /\ name <> "" /\ secret <> "" /\
  all_chars name_char name = true /\ all_chars secret_char secret = true /\
  split_at_colon secret = None.
Proof.
  apply key_match_spec in Hmatch as (-> & Hn & Hs & Hcn & Hcs).
  repeat split; try done.
  clear -Hcs. induction secret as [|ch secret IH]; [done|].
  cbn in Hcs. apply andb_prop in Hcs as [Hch Hrest].
  unfold secret_char in Hch. apply andb_prop in Hch as [Hch _].
  apply andb_prop in Hch as [Hch _]. apply negb_true_iff in Hch.
  cbn [split_at_colon]. rewrite Hch. by rewrite (IH Hrest).
Qed.

End ConstructorMore.

(** *** The operations: the method of a request, the response to [time] *)

Section OperationsMore.
Import JS BaseClient.
Context {E : Environment}.

Lemma lower_ascii_idempotent (ch : ascii) :
  lower_ascii (lower_ascii ch) = lower_ascii ch.
Proof. destruct ch as [[] [] [] [] [] [] [] []]; vm_compute; reflexivity. Qed.

Lemma toLowerCase_idempotent (s : string) :
  toLowerCase (toLowerCase s) = toLowerCase s.
Proof.
  induction s as [|ch s IH]; cbn; [done|].
  by rewrite lower_ascii_idempotent, IH.
Qed.

(** X12: [request] does not distinguish the case of its method: a call with a
    method and the call with that method in lower case do the same, so
    ["GET"], ["Get"] and ["get"] are one method. *)
Theorem request_method_case_insensitive (p : nat) (this : ref) (c : t)
    (method path : string) (version : Z) (params body customHeaders callback : value) :
  request p this c (toLowerCase method) path version params body customHeaders callback
  = request p this c method path version params body customHeaders callback.
Proof.
  unfold request, request_direct. by rewrite toLowerCase_idempotent.
Qed.

(** The store after the response callback of [time], case by case, for any
    callback. *)
Lemma time_onResponse_store (now : Z) (this : ref) (_callback : value)
    (err res unpacked : value) (σ : gmap ref t) :
  snd (time_onResponse now this _callback err res unpacked σ) =
  if truthy err then σ
  else
    match bind (if negb (truthy unpacked) then JSON_parse res else Return res) get_index0 with
    | Throw e => σ
    | Return first =>
        if truthy first
        then alter (set_serverTimeOffset (Some (minus_now first now))) this σ
        else σ
    end.
Proof.
  unfold time_onResponse. destruct (truthy err); [done|].
  destruct (truthy unpacked); cbn.
  - destruct (get_index0 res) as [first|e]; cbn; [|done].
    by destruct (truthy first).
  - destruct (JSON_parse res) as [res'|e]; cbn; [|done].
    destruct (get_index0 res') as [first|e]; cbn; [|done].
    by destruct (truthy first).
Qed.

(** X13: a response that carries the server time [t] sets the offset of the
    client that called [time] to [t - now], so that the client's clock plus
    the offset is the server time, and passes [t] to the callback; [t], [now]
    and their difference are safe integers, for which the subtraction of
    JavaScript's numbers is exact. *)
Theorem time_onResponse_sets_serverTimeOffset (now t : Z) (this : ref) (f : fun_id)
    (err res unpacked : value) (σ : gmap ref BaseClient.t) (c : BaseClient.t)
    (Hthis : σ !! this = Some c)
    (Herr : truthy err = false)
    (Hres : bind (if negb (truthy unpacked) then JSON_parse res else Return res)
              get_index0 = Return (VNum t))
    (Hnonzero : t <> 0%Z)
    (Hsafe : safe_integer t /\ safe_integer now /\ safe_integer (t - now)) :
  fst (time_onResponse now this (VFun f) err res unpacked σ)
  = (Return tt, [ECall f [VNull; VNum t]]) /\
  snd (time_onResponse now this (VFun f) err res unpacked σ) !! this
  = Some (set_serverTimeOffset (Some (Finite (t - now))) c) /\
  (exists offset,
     serverTimeOffset <$> snd (time_onResponse now this (VFun f) err res unpacked σ) !! this
     = Some (Some (Finite offset)) /\ safe_integer offset /\ (now + offset = t)%Z).
Proof.
  assert (Htruthy : truthy (VNum t) = true).
  { cbn. apply negb_true_iff. by apply Z.eqb_neq. }
  assert (Hstore : snd (time_onResponse now this (VFun f) err res unpacked σ) !! this
                   = Some (set_serverTimeOffset (Some (Finite (t - now))) c)).
  { rewrite time_onResponse_store, Herr, Hres, Htruthy.
    by rewrite lookup_alter_eq, Hthis. }
  split; [|split; [exact Hstore|]].
  - rewrite time_onResponse_cases, Herr, Hres, Htruthy. done.
  - exists (t - now)%Z. rewrite Hstore. destruct Hsafe as (_ & _ & Hdiff).
    split; [done|]. split; [exact Hdiff | lia].
Qed.

(** X14: a response that does not carry a time leaves every client as it is:
    when the transport reports an error, when the response cannot be parsed
    or indexed, and when its first element is falsy. *)
Theorem time_onResponse_failure_keeps_store (now : Z) (this : ref)
    (_callback err res unpacked : value) (σ : gmap ref BaseClient.t)
    (Hfailure :
       truthy err = true \/
       (exists e, bind (if negb (truthy unpacked) then JSON_parse res else Return res)
                    get_index0 = Throw e) \/
       (exists first, bind (if negb (truthy unpacked) then JSON_parse res else Return res)
                        get_index0 = Return first /\ truthy first = false)) :
  snd (time_onResponse now this _callback err res unpacked σ) = σ.
Proof.
  rewrite time_onResponse_store.
  destruct Hfailure as [-> | [[e ->] | (first & -> & ->)]]; [done| |];
    by destruct (truthy err).
Qed.

End OperationsMore.

Section ConstructorMoreExamples.
Import JS BaseClient.

Lemma constructed_clientId_valid_witness :
  constructor (E:=test_env) 0
    (VObj [("key", VStr "app.id:secret"); ("clientId", VStr "alice")])
  = (Return test_client_alice, [ENew "Http"; ENew "Auth"; ENew "Channels"; ENew "Push"]) /\
  (has_prop (options test_client_alice) "clientId" = false \/
   get_prop (options test_client_alice) "clientId" = VNull \/
   exists id, get_prop (options test_client_alice) "clientId" = VStr id /\ id <> "*").
Proof.
  assert (Hnew : constructor (E:=test_env) 0
                   (VObj [("key", VStr "app.id:secret"); ("clientId", VStr "alice")])
                 = (Return test_client_alice,
                    [ENew "Http"; ENew "Auth"; ENew "Channels"; ENew "Push"]))
    by reflexivity.
  split; [exact Hnew|].
  exact (constructed_clientId_valid (E:=test_env) 0 _ _ _ Hnew).
Defined.

Lemma constructed_key_split_witness :
  constructor (E:=test_env) 0
    (VObj [("key", VStr "app.id:secret"); ("clientId", VStr "alice")])
  = (Return test_client_alice, [ENew "Http"; ENew "Auth"; ENew "Channels"; ENew "Push"]) /\
  Defaults_normaliseOptions (Environment:=test_env)
    (Defaults_objectifyOptions (Environment:=test_env)
       (VObj [("key", VStr "app.id:secret"); ("clientId", VStr "alice")]))
  = Return [("key", VStr "app.id:secret"); ("clientId", VStr "alice")] /\
  ("clientId" <> "keyName" /\ "clientId" <> "keySecret") /\
  get_prop (options test_client_alice) "clientId"
  = get_prop [("key", VStr "app.id:secret"); ("clientId", VStr "alice")] "clientId" /\
  (truthy (get_prop [("key", VStr "app.id:secret"); ("clientId", VStr "alice")] "key")
   = false /\
   options test_client_alice = [("key", VStr "app.id:secret"); ("clientId", VStr "alice")] \/
   exists name secret,
     get_prop [("key", VStr "app.id:secret"); ("clientId", VStr "alice")] "key"
     = VStr (name ++ ":" ++ secret) /\
     name <> "" /\ secret <> "" /\
     all_chars name_char name = true /\ all_chars secret_char secret = true /\
     get_prop (options test_client_alice) "keyName" = VStr name /\
     get_prop (options test_client_alice) "keySecret" = VStr secret).
Proof.
  assert (Hnew : constructor (E:=test_env) 0
                   (VObj [("key", VStr "app.id:secret"); ("clientId", VStr "alice")])
                 = (Return test_client_alice,
                    [ENew "Http"; ENew "Auth"; ENew "Channels"; ENew "Push"]))
    by reflexivity.
  assert (Hnormal : Defaults_normaliseOptions (Environment:=test_env)
                      (Defaults_objectifyOptions (Environment:=test_env)
                         (VObj [("key", VStr "app.id:secret"); ("clientId", VStr "alice")]))
                    = Return [("key", VStr "app.id:secret"); ("clientId", VStr "alice")])
    by reflexivity.
  assert (Hk : "clientId" <> "keyName" /\ "clientId" <> "keySecret")
    by (split; discriminate).
  split; [exact Hnew|]. split; [exact Hnormal|]. split; [exact Hk|].
  exact (constructed_key_split (E:=test_env) 0 _ _ _ _ "clientId" Hnew Hnormal Hk).
Defined.

Lemma new_BaseClient_allocates_witness :
  new_BaseClient (E:=test_env) (<[0%nat := test_client]> ∅) (VStr "app.id:secret")
    = (Return 1%nat, test_store, [ENew "Http"; ENew "Auth"; ENew "Channels"; ENew "Push"]) /\
  0%nat ∈ dom (<[0%nat := test_client]> (∅ : gmap ref (t (E:=test_env)))) /\
  (1%nat ∉ dom (<[0%nat := test_client]> (∅ : gmap ref (t (E:=test_env))))) /\
  test_store !! 0%nat = <[0%nat := test_client]> (∅ : gmap ref (t (E:=test_env))) !! 0%nat /\
  [ENew "Http"; ENew "Auth"; ENew "Channels"; ENew "Push"]
  = [ENew "Http"; ENew "Auth"; ENew "Channels"; ENew "Push"] /\
  exists c : t (E:=test_env),
    test_store !! 1%nat = Some c /\
    channels c = Channels.Build 1 ∅ /\
    _currentFallback c = None /\ serverTimeOffset c = None.
Proof.
  assert (Hnew : new_BaseClient (E:=test_env) (<[0%nat := test_client]> ∅)
                   (VStr "app.id:secret")
                 = (Return 1%nat, test_store,
                    [ENew "Http"; ENew "Auth"; ENew "Channels"; ENew "Push"]))
    by (vm_compute; reflexivity).
  assert (Hold : 0%nat ∈ dom (<[0%nat := test_client]> (∅ : gmap ref (t (E:=test_env)))))
    by (apply elem_of_dom; eexists; apply lookup_insert_eq).
  split; [exact Hnew|]. split; [exact Hold|].
  exact (new_BaseClient_allocates (E:=test_env) _ _ _ 1%nat 0%nat _ Hnew Hold).
Defined.

Lemma new_BaseClient_Auth_throws_witness :
  truthy (VObj [("clientId", VStr "alice")]) = true /\
  Defaults_normaliseOptions (Environment:=test_env_strict_auth)
    (Defaults_objectifyOptions (Environment:=test_env_strict_auth)
       (VObj [("clientId", VStr "alice")]))
  = Return [("clientId", VStr "alice")] /\
  process_key [("clientId", VStr "alice")] = Return [("clientId", VStr "alice")] /\
  check_clientId [("clientId", VStr "alice")] = Return tt /\
  Http_new (Environment:=test_env_strict_auth) [("clientId", VStr "alice")] = Return true /\
  Auth_new (Environment:=test_env_strict_auth)
    (fresh (dom (∅ : gmap ref (t (E:=test_env_strict_auth))))) [("clientId", VStr "alice")]
  = Throw (ErrorInfo "No authentication options provided" 40160 401) /\
  new_BaseClient (E:=test_env_strict_auth) ∅ (VObj [("clientId", VStr "alice")])
  = (Throw (ErrorInfo "No authentication options provided" 40160 401), ∅,
     [ENew "Http"; ENew "Auth"]).
Proof.
  repeat (split; [reflexivity|]).
  exact (new_BaseClient_Auth_throws (E:=test_env_strict_auth) ∅
           (VObj [("clientId", VStr "alice")])
           [("clientId", VStr "alice")] [("clientId", VStr "alice")] true
           (ErrorInfo "No authentication options provided" 40160 401)
           eq_refl eq_refl eq_refl eq_refl eq_refl eq_refl).
Defined.

Lemma key_match_accepts_witness :
  ("app.id" <> "" /\ all_chars name_char "app.id" = true) /\
  ("secret" <> "" /\ all_chars secret_char "secret" = true) /\
  key_match ("app.id" ++ ":" ++ "secret") = Some ("app.id", "secret").
Proof.
  assert (Hname : "app.id" <> "" /\ all_chars name_char "app.id" = true)
    by (split; [discriminate | reflexivity]).
  assert (Hsecret : "secret" <> "" /\ all_chars secret_char "secret" = true)
    by (split; [discriminate | reflexivity]).
  split; [exact Hname|]. split; [exact Hsecret|].
  exact (key_match_accepts "app.id" "secret" Hname Hsecret).
Defined.

Lemma key_match_only_format_witness :
  key_match "app.id:secret" = Some ("app.id", "secret") /\
  "app.id:secret" = "app.id" ++ ":" ++ "secret" /\ "app.id" <> "" /\ "secret" <> "" /\
  all_chars name_char "app.id" = true /\ all_chars secret_char "secret" = true /\
  split_at_colon "secret" = None.
Proof.
  split; [reflexivity|].
  exact (key_match_only_format "app.id:secret" "app.id" "secret" eq_refl).
Defined.

(** Keys the constructor refuses: two colons, a full stop in the secret,
    white space, an empty part. *)
Example key_match_refuses :
  key_match "a:b:c" = None /\ key_match "app:se.cret" = None /\
  key_match "app id:secret" = None /\ key_match ":secret" = None /\
  key_match "app:" = None /\ key_match "appsecret" = None.
Proof. repeat split. Qed.

End ConstructorMoreExamples.

Section OperationsMoreExamples.
Import JS BaseClient.

Lemma time_onResponse_sets_serverTimeOffset_witness :
  test_store !! 0%nat = Some test_client /\
  truthy VNull = false /\
  bind (if negb (truthy (VBool true))
        then JSON_parse (Environment:=test_env) (VArr [VNum 1700000000000])
        else Return (VArr [VNum 1700000000000])) get_index0
  = Return (VNum 1700000000000) /\
  1700000000000%Z <> 0%Z /\
  (safe_integer 1700000000000 /\ safe_integer 1699999999000 /\
   safe_integer (1700000000000 - 1699999999000)) /\
  fst (time_onResponse (E:=test_env) 1699999999000 0 (VFun (FUser 1)) VNull
         (VArr [VNum 1700000000000]) (VBool true) test_store)
  = (Return tt, [ECall (FUser 1) [VNull; VNum 1700000000000]]) /\
  snd (time_onResponse (E:=test_env) 1699999999000 0 (VFun (FUser 1)) VNull
         (VArr [VNum 1700000000000]) (VBool true) test_store) !! 0%nat
  = Some (set_serverTimeOffset (Some (Finite (1700000000000 - 1699999999000))) test_client) /\
  (exists offset,
     serverTimeOffset (E:=test_env) <$>
       snd (time_onResponse (E:=test_env) 1699999999000 0 (VFun (FUser 1)) VNull
              (VArr [VNum 1700000000000]) (VBool true) test_store) !! 0%nat
     = Some (Some (Finite offset)) /\ safe_integer offset /\
     (1699999999000 + offset = 1700000000000)%Z).
Proof.
  assert (Hthis : test_store !! 0%nat = Some test_client) by (vm_compute; reflexivity).
  assert (Hnonzero : 1700000000000%Z <> 0%Z) by lia.
  assert (Hsafe : safe_integer 1700000000000 /\ safe_integer 1699999999000 /\
                  safe_integer (1700000000000 - 1699999999000))
    by (unfold safe_integer; lia).
  split; [exact Hthis|]. split; [reflexivity|]. split; [reflexivity|].
  split; [exact Hnonzero|]. split; [exact Hsafe|].
  exact (time_onResponse_sets_serverTimeOffset (E:=test_env) 1699999999000 1700000000000
           0 (FUser 1) VNull (VArr [VNum 1700000000000]) (VBool true) test_store
           test_client Hthis eq_refl eq_refl Hnonzero Hsafe).
Defined.

Lemma time_onResponse_failure_keeps_store_witness :
  (truthy (VError (ErrnoException "ECONNREFUSED")) = true \/
   (exists e, bind (if negb (truthy VUndefined)
                    then JSON_parse (Environment:=test_env) VUndefined
                    else Return VUndefined) get_index0 = Throw e) \/
   (exists first, bind (if negb (truthy VUndefined)
                        then JSON_parse (Environment:=test_env) VUndefined
                        else Return VUndefined) get_index0 = Return first /\
                  truthy first = false)) /\
  snd (time_onResponse (E:=test_env) 1699999999000 0 (VFun (FUser 1))
         (VError (ErrnoException "ECONNREFUSED")) VUndefined VUndefined test_store)
  = test_store.
Proof.
  assert (Hfailure :
            truthy (VError (ErrnoException "ECONNREFUSED")) = true \/
            (exists e, bind (if negb (truthy VUndefined)
                             then JSON_parse (Environment:=test_env) VUndefined
                             else Return VUndefined) get_index0 = Throw e) \/
            (exists first, bind (if negb (truthy VUndefined)
                                 then JSON_parse (Environment:=test_env) VUndefined
                                 else Return VUndefined) get_index0 = Return first /\
                           truthy first = false))
    by (left; reflexivity).
  split; [exact Hfailure|].
  exact (time_onResponse_failure_keeps_store (E:=test_env) 1699999999000 0
           (VFun (FUser 1)) (VError (ErrnoException "ECONNREFUSED")) VUndefined VUndefined
           test_store Hfailure).
Defined.

(** The three spellings of one method. *)
Example request_GET_is_get :
  request (E:=test_env) 7 0 test_client "GET" "/channels" 2 VNull VNull VUndefined
    (VFun (FUser 1))
  = request (E:=test_env) 7 0 test_client "get" "/channels" 2 VNull VNull VUndefined
      (VFun (FUser 1)) /\
  toLowerCase "Get" = "get" /\ toLowerCase "PATCH" = "patch".
Proof. repeat split. Qed.

End OperationsMoreExamples.
